(** * The end-to-end room key backup store of Synapse

    A shallow embedding of [synapse/storage/e2e_room_keys.py]
    (class [EndToEndRoomKeyStore]): the two tables the store works on, the
    helpers of [SQLBaseStore] it calls, and every operation of the class,
    followed by the properties of the versioned key backup. *)

From Stdlib Require Import ZArith List Ascii String Bool Lia DecimalString DecimalZ.
From stdpp Require Import base option gmap strings list fin_maps.
Import ListNotations.

Local Open Scope string_scope.
Local Open Scope list_scope.

(** ** Errors and results *)

(** The exceptions an operation can end with: [synapse.api.errors.StoreError]
    with its HTTP code, Python's [ValueError] (raised by [int]) and
    [TypeError], and an error raised by the database driver. *)
Inductive error : Type :=
| StoreError (code : Z) (msg : string)
| ValueError
| TypeError
| DatabaseError (msg : string).

Inductive result (A : Type) : Type :=
| Ok (a : A)
| Err (e : error).
Arguments Ok {A} a.
Arguments Err {A} e.

#[global] Instance result_ret : MRet result := fun A a => Ok a.
#[global] Instance result_bind : MBind result := fun A B f m =>
  match m with
  | Ok a => f a
  | Err e => Err e
  end.
#[global] Instance result_fmap : FMap result := fun A B f m =>
  match m with
  | Ok a => Ok (f a)
  | Err e => Err e
  end.

Definition is_ok {A} (r : result A) : bool :=
  match r with Ok _ => true | Err _ => false end.

(** The 404 of the store: "NotFound". *)
Definition NotFound (msg : string) : error := StoreError 404 msg.

Definition is_not_found {A} (r : result A) : Prop :=
  exists msg, r = Err (NotFound msg).

(** ** Python's [int] and [str] on the values the store handles *)

(** A version reaches [int] either as the integer the driver read from a
    BIGINT column or as text. A text is a [string]: a sequence of characters
    of code 0 to 255, each [ascii] being the character of that code point
    and not a byte of an encoding. *)
Inductive pyval : Type :=
| PyInt (z : Z)
| PyStr (s : string).

(** The characters [int] strips from both ends of a text: TAB to CR and the
    space, and of the characters above 127 those that are whitespace, NEL
    (133) and the no-break space (160). FS to US (28 to 31) are not
    stripped: [int] raises [ValueError] on them. *)
Definition is_space (a : ascii) : bool :=
  let n := N_of_ascii a in
  ((9 <=? n)%N && (n <=? 13)%N) || (n =? 32)%N || (n =? 133)%N || (n =? 160)%N.

Definition digit_of (a : ascii) : option Z :=
  let n := N_of_ascii a in
  if ((48 <=? n)%N && (n <=? 57)%N) then Some (Z.of_N n - 48)%Z else None.

Fixpoint lstrip (s : list ascii) : list ascii :=
  match s with
  | a :: s' => if is_space a then lstrip s' else s
  | [] => []
  end.

Definition strip (s : list ascii) : list ascii :=
  rev (lstrip (rev (lstrip s))).

(** The digits of a base-10 literal: at least one digit, and single
    underscores allowed between two digits only. *)
Fixpoint int_digits (s : list ascii) (acc : Z) (after_digit : bool) : option Z :=
  match s with
  | [] => if after_digit then Some acc else None
  | a :: s' =>
      match digit_of a with
      | Some d => int_digits s' (10 * acc + d)%Z true
      | None =>
          if Ascii.eqb a "_"%char
          then (if after_digit then int_digits s' acc false else None)
          else None
      end
  end.

(** [int(s)] for a text [s]; [None] stands for [ValueError]. Among the
    characters of code 0 to 255 the decimal digits are 0 to 9 only, so no
    other digit has to be read. *)
Definition int_of_str (s : string) : option Z :=
  match strip (list_ascii_of_string s) with
  | a :: t =>
      if Ascii.eqb a "-"%char then Z.opp <$> int_digits t 0%Z false
      else if Ascii.eqb a "+"%char then int_digits t 0%Z false
      else int_digits (a :: t) 0%Z false
  | [] => None
  end.

Definition int_ (v : pyval) : result Z :=
  match v with
  | PyInt z => Ok z
  | PyStr s =>
      match int_of_str s with
      | Some z => Ok z
      | None => Err ValueError
      end
  end.

(** [str(n)] of an integer. *)
Definition str (n : Z) : string := NilZero.string_of_int (Z.to_int n).

(** Python's truth value of an optional string argument: [None] and the
    empty string are false. *)
Definition truthy (o : option string) : bool :=
  match o with
  | Some s => negb (String.eqb s "")
  | None => false
  end.

(** The payloads ([auth_data], [session_data]) are opaque to the store: a
    payload is represented by its JSON text, which [json.dumps] produces and
    [json.loads] reads back. *)
Definition json : Type := string.
Definition json_dumps (j : json) : string := j.
Definition json_loads (s : string) : json := s.

(** ** The database engine *)

(** Modelled from the spec: the database engines of Synapse
    ([synapse/storage/engines], over SQLite and PostgreSQL) and the
    databases behind them. The spec makes [version] an integer column and
    leaves to the engine what a version that is not an integer does: no
    result, or a failure. The model keeps these two outcomes, one per
    engine, for a text parameter that is not a plain integer literal (an
    optional minus sign and decimal digits): SQLite finds no row, PostgreSQL
    raises. What an engine reads beyond plain literals (surrounding blanks
    or a plus sign on both, the numeric affinity of SQLite on texts such as
    1.0) and the 64-bit range of BIGINT are not modelled. *)
Inductive DatabaseEngine : Type :=
| Sqlite3Engine
| PostgresEngine.

Inductive bound : Type :=
| Bound (z : Z)
| Unmatched
| Invalid.

(** Modelled from the spec: the integer a plain integer literal stands for,
    on both engines. *)
Definition bigint_of_text (s : string) : option Z :=
  Z.of_int <$> NilZero.int_of_string s.

(** Modelled from the spec: what an engine makes of a text given for the
    integer column [version]. *)
Definition bind_bigint (e : DatabaseEngine) (s : string) : bound :=
  match bigint_of_text s with
  | Some z => Bound z
  | None =>
      match e with
      | Sqlite3Engine => Unmatched
      | PostgresEngine => Invalid
      end
  end.

(** A query parameter given for the [version] column. *)
Inductive sqlparam : Type :=
| PInt (z : Z)
| PText (s : string)
| PNull.

(** Modelled from the spec: the integer a [version = ?] condition compares
    with; [None] when the condition holds for no row ([NULL], or text SQLite
    does not read as an integer). *)
Definition bind_version (e : DatabaseEngine) (p : sqlparam) : result (option Z) :=
  match p with
  | PInt z => Ok (Some z)
  | PNull => Ok None
  | PText s =>
      match bind_bigint e s with
      | Bound z => Ok (Some z)
      | Unmatched => Ok None
      | Invalid => Err (DatabaseError "invalid input syntax for integer")
      end
  end.

(** Modelled from the spec: the integer stored when a parameter is written
    into the [version] column, which the persisted shape declares an
    integer; a text that is no integer literal is refused on both engines
    (the rows of the model hold integers only, where SQLite would keep the
    text). *)
Definition store_version (e : DatabaseEngine) (p : sqlparam) : result Z :=
  match p with
  | PInt z => Ok z
  | PNull => Err (DatabaseError "NOT NULL constraint failed")
  | PText s =>
      match bind_bigint e s with
      | Bound z => Ok z
      | _ => Err (DatabaseError "invalid input syntax for integer")
      end
  end.

Definition version_is (v : option Z) (col : Z) : bool :=
  match v with
  | Some z => (z =? col)%Z
  | None => false
  end.

(** ** The two tables *)

(** A row of [e2e_room_keys_versions]. [v_hash] is nullable; [v_deleted]
    defaults to false. *)
Record VersionRow : Type := mkVersionRow {
  v_user_id : string;
  v_version : Z;
  v_algorithm : string;
  v_auth_data : string;
  v_hash : option Z;
  v_deleted : bool
}.

(** A row of [e2e_room_keys]. *)
Record KeyRow : Type := mkKeyRow {
  k_user_id : string;
  k_version : Z;
  k_room_id : string;
  k_session_id : string;
  k_first_message_index : Z;
  k_forwarded_count : Z;
  k_is_verified : bool;
  k_session_data : string
}.

Record Store : Type := mkStore {
  e2e_room_keys_versions : list VersionRow;
  e2e_room_keys : list KeyRow
}.

Definition empty_store : Store := mkStore [] [].

(** ** The dictionaries exchanged with the callers *)

(** A [room_key] dict. *)
Record RoomKey : Type := mkRoomKey {
  first_message_index : Z;
  forwarded_count : Z;
  is_verified : bool;
  session_data : json
}.

(** The [info] dict of [create_e2e_room_keys_version]. *)
Record NewVersionInfo : Type := mkNewVersionInfo {
  nv_algorithm : string;
  nv_auth_data : json
}.

(** The [info] dict of [update_e2e_room_keys_version]: a key that is absent
    from the dict is [None]. *)
Record VersionUpdate : Type := mkVersionUpdate {
  vu_auth_data : option json;
  vu_hash : option Z
}.

(** The dict [get_e2e_room_keys_version_info] returns. *)
Record VersionInfo : Type := mkVersionInfo {
  vi_version : string;
  vi_algorithm : string;
  vi_auth_data : json;
  vi_hash : Z
}.

(** [{"sessions": {session_id: room_key}}] and [{"rooms": {room_id: ...}}],
    the shape [get_e2e_room_keys] returns. *)
Record RoomEntry : Type := mkRoomEntry {
  sessions : gmap string RoomKey
}.

Record RoomKeys : Type := mkRoomKeys {
  rooms : gmap string RoomEntry
}.

(** ** The helpers of [SQLBaseStore] *)

Section SQLBaseStore.
Context {Row : Type}.

(** Modelled from the spec: [SQLBaseStore._simple_select_list] of
    [synapse/storage/_base.py], the keyed select primitive: the rows that
    satisfy the key values, in table order. *)
Definition _simple_select_list (keyvalues : Row -> bool) (table : list Row)
  : list Row :=
  List.filter keyvalues table.

(** Modelled from the spec: [SQLBaseStore._simple_select_one_txn] of
    [synapse/storage/_base.py]: the one row that satisfies the key values;
    NotFound when there is none. *)
Definition _simple_select_one_txn (keyvalues : Row -> bool) (table : list Row)
  : result Row :=
  match List.filter keyvalues table with
  | [] => Err (StoreError 404 "No row found")
  | [row] => Ok row
  | _ :: _ :: _ => Err (StoreError 500 "More than one row matched")
  end.

(** Modelled from the spec: [SQLBaseStore._simple_update_txn] of
    [synapse/storage/_base.py], the keyed update primitive: the table with
    every matching row updated, and the number of rows matched. *)
Definition _simple_update_txn (keyvalues : Row -> bool) (updatevalues : Row -> Row)
    (table : list Row) : list Row * nat :=
  (List.map (fun row => if keyvalues row then updatevalues row else row) table,
   length (List.filter keyvalues table)).

(** Modelled from the spec: [SQLBaseStore._simple_update_one_txn] of
    [synapse/storage/_base.py], update-one semantics: exactly one row must
    match; NotFound when none does. *)
Definition _simple_update_one_txn (keyvalues : Row -> bool)
    (updatevalues : Row -> Row) (table : list Row) : result (list Row) :=
  let '(table', rowcount) := _simple_update_txn keyvalues updatevalues table in
  if (rowcount =? 0)%nat then Err (StoreError 404 "No row found")
  else if (1 <? rowcount)%nat then Err (StoreError 500 "More than one row matched")
  else Ok table'.

(** Modelled from the spec: [SQLBaseStore._simple_update] of
    [synapse/storage/_base.py], as [update_e2e_room_keys_version] uses it:
    the spec has the update fail with NotFound when no row has the key
    values. *)
Definition _simple_update (keyvalues : Row -> bool) (updatevalues : Row -> Row)
    (table : list Row) : result (list Row) :=
  let '(table', rowcount) := _simple_update_txn keyvalues updatevalues table in
  if (rowcount =? 0)%nat then Err (StoreError 404 "No row found")
  else Ok table'.

(** Modelled from the spec: [SQLBaseStore._simple_delete] of
    [synapse/storage/_base.py], the keyed delete primitive: every matching
    row is removed. *)
Definition _simple_delete (keyvalues : Row -> bool) (table : list Row)
  : list Row :=
  List.filter (fun row => negb (keyvalues row)) table.

(** Modelled from the spec: [SQLBaseStore._simple_insert_txn] of
    [synapse/storage/_base.py], the keyed insert primitive: the row is
    appended unless a row with the same unique key is there, which the
    engine reports. *)
Definition _simple_insert_txn (same_key : Row -> Row -> bool)
    (table : list Row) (row : Row) : result (list Row) :=
  if existsb (same_key row) table
  then Err (DatabaseError "UNIQUE constraint failed")
  else Ok (table ++ [row]).

(** Modelled from the spec: [SQLBaseStore._simple_insert_many] of
    [synapse/storage/_base.py]: all rows in one transaction, a key
    collision failing the whole insert. *)
Fixpoint _simple_insert_many (same_key : Row -> Row -> bool)
    (table : list Row) (values : list Row) : result (list Row) :=
  match values with
  | [] => Ok table
  | row :: values' =>
      table' ← _simple_insert_txn same_key table row;
      _simple_insert_many same_key table' values'
  end.
End SQLBaseStore.

(** [SELECT MAX(version) ...]: an aggregate without GROUP BY returns exactly
    one row, whose only column is NULL when no row is selected. *)
Definition sql_max (vs : list Z) : option Z :=
  fold_left (fun acc v => Some (match acc with
                                | Some m => Z.max m v
                                | None => v
                                end)) vs None.

Definition select_max_version (keyvalues : VersionRow -> bool)
    (table : list VersionRow) : list (option Z) :=
  [sql_max (List.map v_version (List.filter keyvalues table))].

(** [txn.fetchone()]. *)
Definition fetchone {A} (cursor : list A) : option A := head cursor.

(** The unique keys of the two tables. *)
Definition same_version_key (a b : VersionRow) : bool :=
  String.eqb (v_user_id a) (v_user_id b) && (v_version a =? v_version b)%Z.

Definition same_room_key (a b : KeyRow) : bool :=
  String.eqb (k_user_id a) (k_user_id b) && (k_version a =? k_version b)%Z
  && String.eqb (k_room_id a) (k_room_id b)
  && String.eqb (k_session_id a) (k_session_id b).

(** ** The operations of [EndToEndRoomKeyStore] *)

(** The key values [{"user_id": ..., "version": ..., "room_id": ...,
    "session_id": ...}] over [e2e_room_keys]; the last two keys are optional. *)
Record KeyValues : Type := mkKeyValues {
  kv_user_id : string;
  kv_version : option Z;
  kv_room_id : option string;
  kv_session_id : option string
}.

Definition opt_is (o : option string) (col : string) : bool :=
  match o with
  | Some s => String.eqb s col
  | None => true
  end.

Definition key_matches (kv : KeyValues) (row : KeyRow) : bool :=
  String.eqb (kv_user_id kv) (k_user_id row)
  && version_is (kv_version kv) (k_version row)
  && opt_is (kv_room_id kv) (k_room_id row)
  && opt_is (kv_session_id kv) (k_session_id row).

(** The optional room and session filter of [get_e2e_room_keys] and
    [delete_e2e_room_keys]:
    [if room_id: keyvalues["room_id"] = room_id;
       if session_id: keyvalues["session_id"] = session_id]. *)
Definition filter_keyvalues (user_id : string) (version : option Z)
    (room_id session_id : option string) : KeyValues :=
  if truthy room_id
  then (if truthy session_id
        then mkKeyValues user_id version room_id session_id
        else mkKeyValues user_id version room_id None)
  else mkKeyValues user_id version None None.

Definition room_key_of_row (row : KeyRow) : RoomKey :=
  {| first_message_index := k_first_message_index row;
     forwarded_count := k_forwarded_count row;
     is_verified := k_is_verified row;
     session_data := json_loads (k_session_data row) |}.

Definition row_of_room_key (user_id : string) (version : Z)
    (room_id session_id : string) (room_key : RoomKey) : KeyRow :=
  {| k_user_id := user_id;
     k_version := version;
     k_room_id := room_id;
     k_session_id := session_id;
     k_first_message_index := first_message_index room_key;
     k_forwarded_count := forwarded_count room_key;
     k_is_verified := is_verified room_key;
     k_session_data := json_dumps (session_data room_key) |}.

Definition set_room_key (room_key : RoomKey) (row : KeyRow) : KeyRow :=
  row_of_room_key (k_user_id row) (k_version row) (k_room_id row)
    (k_session_id row) room_key.

Definition with_keys (s : Store) (keys : list KeyRow) : Store :=
  mkStore (e2e_room_keys_versions s) keys.

Definition with_versions (s : Store) (versions : list VersionRow) : Store :=
  mkStore versions (e2e_room_keys s).

Section Operations.
Variable engine : DatabaseEngine.

Definition update_e2e_room_key (user_id version room_id session_id : string)
    (room_key : RoomKey) (s : Store) : result Store :=
  v ← bind_version engine (PText version);
  keys ← _simple_update_one_txn
            (key_matches (mkKeyValues user_id v (Some room_id) (Some session_id)))
            (set_room_key room_key)
            (e2e_room_keys s);
  Ok (with_keys s keys).

Definition add_e2e_room_keys (user_id version : string)
    (room_keys : list (string * string * RoomKey)) (s : Store) : result Store :=
  match room_keys with
  | [] => Ok s
  | _ :: _ =>
      v ← store_version engine (PText version);
      keys ← _simple_insert_many same_room_key (e2e_room_keys s)
                (List.map (fun '(room_id, session_id, room_key) =>
                             row_of_room_key user_id v room_id session_id room_key)
                          room_keys);
      Ok (with_keys s keys)
  end.

(** [room_entry = sessions["rooms"].setdefault(row["room_id"], {"sessions": {}});
    room_entry["sessions"][row["session_id"]] = {...}]. *)
Definition add_session (acc : RoomKeys) (row : KeyRow) : RoomKeys :=
  let room_entry := default (mkRoomEntry ∅) (rooms acc !! k_room_id row) in
  mkRoomKeys
    (<[k_room_id row :=
         mkRoomEntry (<[k_session_id row := room_key_of_row row]> (sessions room_entry))]>
       (rooms acc)).

Definition get_e2e_room_keys (user_id version : string)
    (room_id session_id : option string) (s : Store) : result RoomKeys :=
  match int_ (PyStr version) with
  | Err ValueError => Ok (mkRoomKeys ∅)
  | Err e => Err e
  | Ok version =>
      let keyvalues := filter_keyvalues user_id (Some version) room_id session_id in
      let rows := _simple_select_list (key_matches keyvalues) (e2e_room_keys s) in
      Ok (fold_left add_session rows (mkRoomKeys ∅))
  end.

(** One clause ["(room_id = ? AND session_id IN (?,...,?))"], with that
    many placeholders in the IN list. *)
Inductive where_clause : Type :=
| RoomSessionsIn (placeholders : nat).

Definition where_clause_sql (c : where_clause) : string :=
  match c with
  | RoomSessionsIn n =>
      "(room_id = ? AND session_id IN ("
      ++ String.concat "," (repeat "?" n) ++ "))"
  end.

(** The text of the query of [_get_e2e_room_keys_multi_txn]. *)
Definition select_multi_sql (where_clauses : list where_clause) : string :=
  "SELECT room_id, session_id, first_message_index, forwarded_count, "
  ++ "is_verified, session_data FROM e2e_room_keys "
  ++ "WHERE user_id = ? AND version = ? AND ("
  ++ String.concat " OR " (List.map where_clause_sql where_clauses) ++ ")".

Definition placeholders_of (c : where_clause) : nat :=
  match c with RoomSessionsIn n => S n end.

(** The OR of the clauses on one row, each clause taking its parameters
    from the front of the list. *)
Fixpoint eval_where (where_clauses : list where_clause) (params : list string)
    (row : KeyRow) : bool :=
  match where_clauses with
  | [] => false
  | RoomSessionsIn n :: rest =>
      match params with
      | [] => false
      | room_id :: params' =>
          (String.eqb (k_room_id row) room_id
           && existsb (String.eqb (k_session_id row)) (firstn n params'))
          || eval_where rest (skipn n params') row
      end
  end.

(** [txn.execute(sql, params)] for that query. An empty parenthesis (no
    clause at all, or an empty IN list on PostgreSQL) is a syntax error,
    and the parameters must be as many as the placeholders. *)
Definition execute_select_multi (where_clauses : list where_clause)
    (params : list string) (table : list KeyRow) : result (list KeyRow) :=
  match where_clauses with
  | [] => Err (DatabaseError "syntax error at or near )")
  | _ :: _ =>
      if existsb (fun c => match c, engine with
                           | RoomSessionsIn O, PostgresEngine => true
                           | _, _ => false
                           end) where_clauses
      then Err (DatabaseError "syntax error at or near )")
      else
        match params with
        | user_id :: version :: params' =>
            if negb (length params' =? list_sum (List.map placeholders_of where_clauses))%nat
            then Err (DatabaseError "incorrect number of bindings supplied")
            else
              v ← bind_version engine (PText version);
              Ok (List.filter (fun row => String.eqb (k_user_id row) user_id
                                          && version_is v (k_version row)
                                          && eval_where where_clauses params' row)
                              table)
        | _ => Err (DatabaseError "incorrect number of bindings supplied")
        end
  end.

(** The loop over [room_keys.items()]: rooms without sessions are skipped. *)
Definition multi_clauses (user_id version : string)
    (room_keys : list (string * list string)) : list where_clause * list string :=
  fold_left (fun '(where_clauses, params) '(room_id, room_sessions) =>
               if (length room_sessions =? 0)%nat
               then (where_clauses, params)
               else (where_clauses ++ [RoomSessionsIn (length room_sessions)],
                     params ++ room_id :: room_sessions))
            room_keys ([], [user_id; version]).

(** [ret.setdefault(room_id, {}); ret[room_id][session_id] = {...}]. *)
Definition add_multi (ret : gmap string (gmap string RoomKey)) (row : KeyRow)
  : gmap string (gmap string RoomKey) :=
  <[k_room_id row :=
      <[k_session_id row := room_key_of_row row]> (default ∅ (ret !! k_room_id row))]> ret.

Definition _get_e2e_room_keys_multi_txn (user_id version : string)
    (room_keys : list (string * list string)) (s : Store)
  : result (gmap string (gmap string RoomKey)) :=
  if (length room_keys =? 0)%nat then Ok ∅
  else
    let '(where_clauses, params) := multi_clauses user_id version room_keys in
    rows ← execute_select_multi where_clauses params (e2e_room_keys s);
    Ok (fold_left add_multi rows ∅).

Definition get_e2e_room_keys_multi := _get_e2e_room_keys_multi_txn.

Definition count_e2e_room_keys (user_id version : string) (s : Store) : result nat :=
  v ← bind_version engine (PText version);
  Ok (length (_simple_select_list
                (key_matches (mkKeyValues user_id v None None)) (e2e_room_keys s))).

Definition delete_e2e_room_keys (user_id version : string)
    (room_id session_id : option string) (s : Store) : result Store :=
  version ← int_ (PyStr version);
  let keyvalues := filter_keyvalues user_id (Some version) room_id session_id in
  Ok (with_keys s (_simple_delete (key_matches keyvalues) (e2e_room_keys s))).
End Operations.

Definition for_user (user_id : string) (row : VersionRow) : bool :=
  String.eqb user_id (v_user_id row).

Definition not_deleted (row : VersionRow) : bool := negb (v_deleted row).

(** [SELECT MAX(version) FROM e2e_room_keys_versions WHERE user_id=? AND
    deleted=0], then [row = txn.fetchone(); if not row: raise ...; return
    row[0]]. The row of an aggregate is a 1-tuple, which is true also when
    its column is NULL. *)
Definition _get_current_version (user_id : string) (s : Store) : result (option Z) :=
  let cursor := select_max_version (fun row => for_user user_id row && not_deleted row)
                                   (e2e_room_keys_versions s) in
  match fetchone cursor with
  | None => Err (StoreError 404 "No current backup version")
  | Some row0 => Ok row0
  end.

Definition version_info_of_row (row : VersionRow) : VersionInfo :=
  {| vi_version := str (v_version row);
     vi_algorithm := v_algorithm row;
     vi_auth_data := json_loads (v_auth_data row);
     vi_hash := match v_hash row with
                | Some h => if (h =? 0)%Z then 0%Z else h
                | None => 0%Z
                end |}.

Definition get_e2e_room_keys_version_info (user_id : string)
    (version : option string) (s : Store) : result VersionInfo :=
  this_version ←
    match version with
    | None => _get_current_version user_id s
    | Some version =>
        match int_ (PyStr version) with
        | Ok z => Ok (Some z)
        | Err ValueError => Err (StoreError 404 "No row found")
        | Err e => Err e
        end
    end;
  row ← _simple_select_one_txn
           (fun row => for_user user_id row
                       && version_is this_version (v_version row)
                       && not_deleted row)
           (e2e_room_keys_versions s);
  Ok (version_info_of_row row).

Definition set_auth_data (auth_data : option json) (row : VersionRow) : VersionRow :=
  match auth_data with
  | Some j => mkVersionRow (v_user_id row) (v_version row) (v_algorithm row)
                (json_dumps j) (v_hash row) (v_deleted row)
  | None => row
  end.

Definition set_hash (hash : option Z) (row : VersionRow) : VersionRow :=
  match hash with
  | Some h => mkVersionRow (v_user_id row) (v_version row) (v_algorithm row)
                (v_auth_data row) (Some h) (v_deleted row)
  | None => row
  end.

Definition set_deleted (row : VersionRow) : VersionRow :=
  mkVersionRow (v_user_id row) (v_version row) (v_algorithm row)
    (v_auth_data row) (v_hash row) true.

Section VersionOperations.
Variable engine : DatabaseEngine.

Definition create_e2e_room_keys_version (user_id : string) (info : NewVersionInfo)
    (s : Store) : result (string * Store) :=
  let cursor := select_max_version (for_user user_id) (e2e_room_keys_versions s) in
  match fetchone cursor with
  | None => Err TypeError
  | Some current_version =>
      let current_version := match current_version with
                             | None => PyStr "0"
                             | Some z => PyInt z
                             end in
      n ← int_ current_version;
      let new_version := str (n + 1) in
      v ← store_version engine (PText new_version);
      versions ← _simple_insert_txn same_version_key (e2e_room_keys_versions s)
                    {| v_user_id := user_id;
                       v_version := v;
                       v_algorithm := nv_algorithm info;
                       v_auth_data := json_dumps (nv_auth_data info);
                       v_hash := None;
                       v_deleted := false |};
      Ok (new_version, with_versions s versions)
  end.

(** [updatevalues] holds the keys of [info] among "auth_data" and "hash". *)
Definition update_e2e_room_keys_version (user_id version : string)
    (info : VersionUpdate) (s : Store) : result Store :=
  let updatevalues := fun row => set_hash (vu_hash info)
                                   (set_auth_data (vu_auth_data info) row) in
  v ← bind_version engine (PText version);
  versions ← _simple_update
                (fun row => for_user user_id row && version_is v (v_version row))
                updatevalues (e2e_room_keys_versions s);
  Ok (with_versions s versions).

Definition delete_e2e_room_keys_version (user_id : string)
    (version : option string) (s : Store) : result Store :=
  this_version ←
    match version with
    | None =>
        current ← _get_current_version user_id s;
        Ok (match current with
            | Some z => PInt z
            | None => PNull
            end)
    | Some version => Ok (PText version)
    end;
  v ← bind_version engine this_version;
  versions ← _simple_update_one_txn
                (fun row => for_user user_id row && version_is v (v_version row))
                set_deleted (e2e_room_keys_versions s);
  Ok (with_versions s versions).
End VersionOperations.

(** ** Runs of the store *)

(** A call of one of the operations. *)
Inductive op : Type :=
| UpdateKey (user_id version room_id session_id : string) (room_key : RoomKey)
| AddKeys (user_id version : string) (room_keys : list (string * string * RoomKey))
| GetKeys (user_id version : string) (room_id session_id : option string)
| GetKeysMulti (user_id version : string) (room_keys : list (string * list string))
| CountKeys (user_id version : string)
| DeleteKeys (user_id version : string) (room_id session_id : option string)
| GetVersionInfo (user_id : string) (version : option string)
| CreateVersion (user_id : string) (info : NewVersionInfo)
| UpdateVersion (user_id version : string) (info : VersionUpdate)
| DeleteVersion (user_id : string) (version : option string).

(** The store an operation leaves: a failed transaction is rolled back, and
    a query changes nothing. *)
Definition commit (s : Store) (r : result Store) : Store :=
  match r with
  | Ok s' => s'
  | Err _ => s
  end.

Definition step (engine : DatabaseEngine) (s : Store) (o : op) : Store :=
  match o with
  | UpdateKey u v r x k => commit s (update_e2e_room_key engine u v r x k s)
  | AddKeys u v ks => commit s (add_e2e_room_keys engine u v ks s)
  | DeleteKeys u v r x => commit s (delete_e2e_room_keys u v r x s)
  | CreateVersion u info =>
      commit s (snd <$> create_e2e_room_keys_version engine u info s)
  | UpdateVersion u v info => commit s (update_e2e_room_keys_version engine u v info s)
  | DeleteVersion u v => commit s (delete_e2e_room_keys_version engine u v s)
  | GetKeys _ _ _ _ | GetKeysMulti _ _ _ | CountKeys _ _ | GetVersionInfo _ _ => s
  end.

Definition run (engine : DatabaseEngine) (s : Store) (ops : list op) : Store :=
  fold_left (step engine) ops s.

Definition reachable (engine : DatabaseEngine) (s : Store) : Prop :=
  exists ops, s = run engine empty_store ops.

(** The versions [create_e2e_room_keys_version] returns for [user_id] along
    a run, in order; a call that fails returns none. *)
Fixpoint created_versions (engine : DatabaseEngine) (user_id : string)
    (s : Store) (ops : list op) : list string :=
  match ops with
  | [] => []
  | o :: ops' =>
      let returned :=
        match o with
        | CreateVersion u info =>
            if String.eqb u user_id
            then match create_e2e_room_keys_version engine u info s with
                 | Ok (version, _) => [version]
                 | Err _ => []
                 end
            else []
        | _ => []
        end in
      returned ++ created_versions engine user_id (step engine s o) ops'
  end.

Definition creations_for (user_id : string) (ops : list op) : nat :=
  length (List.filter (fun o => match o with
                                | CreateVersion u _ => String.eqb u user_id
                                | _ => false
                                end) ops).

(** ** Notions the properties are stated with *)

(** The highest version number ever assigned to [user_id], deleted or not;
    0 when none was. *)
Definition max_version (user_id : string) (s : Store) : Z :=
  match sql_max (List.map v_version
                   (List.filter (for_user user_id) (e2e_room_keys_versions s))) with
  | Some m => m
  | None => 0%Z
  end.

Definition version_key (row : VersionRow) : string * Z :=
  (v_user_id row, v_version row).

(** [row] is the current version of [user_id]: the highest-numbered row
    that is not deleted. *)
Definition is_current_version (s : Store) (user_id : string) (row : VersionRow) : Prop :=
  In row (e2e_room_keys_versions s)
  /\ v_user_id row = user_id
  /\ v_deleted row = false
  /\ forall row', In row' (e2e_room_keys_versions s) ->
                  v_user_id row' = user_id -> v_deleted row' = false ->
                  (v_version row' <= v_version row)%Z.

Definition no_current_version (s : Store) (user_id : string) : Prop :=
  forall row, In row (e2e_room_keys_versions s) ->
              v_user_id row = user_id -> v_deleted row = true.

(** [next] is the highest-numbered row of [user_id] that is not deleted and
    lies below [row]. *)
Definition is_next_highest (s : Store) (user_id : string) (row next : VersionRow) : Prop :=
  In next (e2e_room_keys_versions s)
  /\ v_user_id next = user_id
  /\ v_deleted next = false
  /\ (v_version next < v_version row)%Z
  /\ forall row', In row' (e2e_room_keys_versions s) ->
                  v_user_id row' = user_id -> v_deleted row' = false ->
                  (v_version row' < v_version row)%Z ->
                  (v_version row' <= v_version next)%Z.

(** The record stored for one key: that of the last row with the key, which
    is the only one when the compound key is unique. *)
Definition stored_record (table : list KeyRow) (user_id : string) (version : Z)
    (room_id session_id : string) : option RoomKey :=
  room_key_of_row <$>
    last (List.filter
            (key_matches (mkKeyValues user_id (Some version) (Some room_id) (Some session_id)))
            table).

(** The record a result of [get_e2e_room_keys] holds for a room and a
    session. *)
Definition lookup_key (r : result RoomKeys) (room_id session_id : string)
  : option RoomKey :=
  match r with
  | Ok ret => rooms ret !! room_id ≫= fun entry => sessions entry !! session_id
  | Err _ => None
  end.

(** The same for a result of [get_e2e_room_keys_multi]. *)
Definition lookup_multi (ret : gmap string (gmap string RoomKey))
    (room_id session_id : string) : option RoomKey :=
  ret !! room_id ≫= fun room => room !! session_id.

(** A pair of room and session is requested by a selection. *)
Definition requested (room_keys : list (string * list string))
    (room_id session_id : string) : bool :=
  existsb (fun '(r, room_sessions) =>
             String.eqb room_id r && existsb (String.eqb session_id) room_sessions)
          room_keys.

(** A version row after an update by the partial record [info], in the
    words of the spec: the fields present are replaced, the others kept. *)
Definition updated_fields (info : VersionUpdate) (row : VersionRow) : VersionRow :=
  {| v_user_id := v_user_id row;
     v_version := v_version row;
     v_algorithm := v_algorithm row;
     v_auth_data := match vu_auth_data info with
                    | Some auth_data => auth_data
                    | None => v_auth_data row
                    end;
     v_hash := match vu_hash info with
               | Some hash => Some hash
               | None => v_hash row
               end;
     v_deleted := v_deleted row |}.

(** The version numbers of the rows of [user_id], in table order. *)
Definition versions_of (user_id : string) (s : Store) : list Z :=
  List.map v_version (List.filter (for_user user_id) (e2e_room_keys_versions s)).

(** An update in place that keeps the user and the number of every row. *)
Definition keeps_key (g : VersionRow -> VersionRow) : Prop :=
  forall row, v_user_id (g row) = v_user_id row /\ v_version (g row) = v_version row.

Ltac unfold_bind := unfold mbind, result_bind, fmap, result_fmap, mret, result_ret in *.

(** The rows of [user_id] that are not deleted. *)
Definition active_versions (user_id : string) (s : Store) : list VersionRow :=
  List.filter (fun row => for_user user_id row && not_deleted row)
              (e2e_room_keys_versions s).

(** Stores of small runs, used to instantiate the properties. *)
Definition example_info : NewVersionInfo := mkNewVersionInfo "m.megolm_backup.v1" "{}".

Definition example_key : RoomKey := mkRoomKey 1 0 true "{}".

Definition replacement_key : RoomKey := mkRoomKey 5 1 false "{}".

Definition two_versions : Store :=
  run Sqlite3Engine empty_store
    [CreateVersion "alice" example_info; CreateVersion "alice" example_info].

Definition deleted_version : Store :=
  run Sqlite3Engine empty_store
    [CreateVersion "alice" example_info; DeleteVersion "alice" None].

Definition backed_up_keys : Store :=
  run Sqlite3Engine empty_store
    [CreateVersion "alice" example_info;
     AddKeys "alice" "1" [("!r1", "s1", example_key); ("!r1", "s2", example_key);
                          ("!r2", "s3", example_key)]].

(** The scenario of the spec: a version, three keys in two rooms, the
    version deleted, a second version. *)
Definition scenario : list op :=
  [CreateVersion "alice" example_info;
   AddKeys "alice" "1" [("!r1", "s1", example_key); ("!r1", "s2", example_key);
                        ("!r2", "s3", example_key)];
   DeleteVersion "alice" None;
   CreateVersion "alice" example_info].

(** [row] is a row of the room and the session. *)
Definition of_room_session (room_id session_id : string) (row : KeyRow) : bool :=
  String.eqb (k_room_id row) room_id && String.eqb (k_session_id row) session_id.

Ltac case_eqb :=
  repeat match goal with
         | |- context [String.eqb ?a ?b] => destruct (String.eqb_spec a b)
         end;
  subst; cbn [andb orb negb]; rewrite ?andb_false_r, ?andb_true_r;
  try reflexivity; try congruence.

(** The clauses and the parameters the loop of
    [_get_e2e_room_keys_multi_txn] collects, room by room. *)
Definition selected_clauses (room_keys : list (string * list string)) : list where_clause :=
  flat_map (fun '(_, room_sessions) =>
              if (length room_sessions =? 0)%nat then []
              else [RoomSessionsIn (length room_sessions)]) room_keys.

Definition selected_params (room_keys : list (string * list string)) : list string :=
  flat_map (fun '(room_id, room_sessions) =>
              if (length room_sessions =? 0)%nat then []
              else room_id :: room_sessions) room_keys.

(** ** The domain rule checker

    [synapse/rulecheck/domain_rule_checker.py]: the spam checker module that
    allows or refuses invites by the domains of the two users. *)

Module DomainRuleChecker.

(** What a method of the checker can raise: the [Exception] of
    [_get_domain_from_id], the [ConfigError] of [parse_config], and the
    [KeyError] of a subscript on the config dict. *)
Inductive exception : Type :=
| InvalidID (mxid : string)
| ConfigError (msg : string)
| KeyError (key : string).

Inductive outcome (A : Type) : Type :=
| Returns (a : A)
| Raises (e : exception).
Arguments Returns {A} a.
Arguments Raises {A} e.

#[global] Instance outcome_ret : MRet outcome := fun A a => Returns a.
#[global] Instance outcome_bind : MBind outcome := fun A B f m =>
  match m with
  | Returns a => f a
  | Raises e => Raises e
  end.

(** The config dict, by the keys the checker reads: a key that is absent is
    [None]; the value of "domain_mapping" can itself be [None]. *)
Record Config : Type := mkConfig {
  cfg_domain_mapping : option (option (gmap string (list string)));
  cfg_default : option bool;
  cfg_can_only_join_rooms_with_invite : option bool;
  cfg_can_only_create_one_to_one_rooms : option bool;
  cfg_can_only_invite_during_room_creation : option bool
}.

(** The attributes [__init__] sets. *)
Record t : Type := mkChecker {
  domain_mapping : gmap string (list string);
  default : bool;
  can_only_join_rooms_with_invite : bool;
  can_only_create_one_to_one_rooms : bool;
  can_only_invite_during_room_creation : bool
}.

(** [config.get(key, False)]. *)
Definition get_flag (value : option bool) : bool :=
  match value with
  | Some b => b
  | None => false
  end.

(** [self.domain_mapping = config["domain_mapping"] or {}] and the rest of
    the constructor. *)
Definition __init__ (config : Config) : outcome t :=
  match cfg_domain_mapping config with
  | None => Raises (KeyError "domain_mapping")
  | Some mapping =>
      match cfg_default config with
      | None => Raises (KeyError "default")
      | Some d =>
          Returns
            {| domain_mapping := match mapping with
                                 | Some m => m
                                 | None => ∅
                                 end;
               default := d;
               can_only_join_rooms_with_invite :=
                 get_flag (cfg_can_only_join_rooms_with_invite config);
               can_only_create_one_to_one_rooms :=
                 get_flag (cfg_can_only_create_one_to_one_rooms config);
               can_only_invite_during_room_creation :=
                 get_flag (cfg_can_only_invite_during_room_creation config) |}
      end
  end.

Definition check_event_for_spam (self : t) (event : string) : bool := false.

(** [str.find]: the index of the first occurrence, or -1. *)
Fixpoint find_from (s : string) (c : ascii) (i : Z) : Z :=
  match s with
  | EmptyString => (-1)%Z
  | String a s' => if Ascii.eqb a c then i else find_from s' c (i + 1)%Z
  end.

Definition find (s : string) (c : ascii) : Z := find_from s c 0%Z.

Fixpoint string_drop (n : nat) (s : string) : string :=
  match n, s with
  | O, _ => s
  | S n', String _ s' => string_drop n' s'
  | S _, EmptyString => EmptyString
  end.

(** The slice [s[start:]]; a negative start counts from the end. *)
Definition slice_from (s : string) (start : Z) : string :=
  if (start <? 0)%Z
  then string_drop (Z.to_nat (Z.max 0 (Z.of_nat (String.length s) + start))) s
  else string_drop (Z.to_nat start) s.

Definition _get_domain_from_id (mxid : string) : outcome string :=
  let idx := find mxid ":"%char in
  if (idx =? -1)%Z then Raises (InvalidID mxid)
  else Returns (slice_from mxid (idx + 1)%Z).

Definition user_may_invite (self : t) (inviter_userid invitee_userid room_id : string)
    (new_room : bool) : outcome bool :=
  if can_only_invite_during_room_creation self && negb new_room then Returns false
  else
    inviter_domain ← _get_domain_from_id inviter_userid;
    invitee_domain ← _get_domain_from_id invitee_userid;
    match domain_mapping self !! inviter_domain with
    | None => Returns (default self)
    | Some permitted => Returns (existsb (String.eqb invitee_domain) permitted)
    end.

Definition user_may_create_room (self : t) (userid : string) (invite_list : list string)
    (cloning : bool) : bool :=
  if cloning then true
  else if can_only_create_one_to_one_rooms self && negb (length invite_list =? 1)%nat
       then false
       else true.

Definition user_may_create_room_alias (self : t) (userid room_alias : string) : bool :=
  true.

Definition user_may_publish_room (self : t) (userid room_id : string) : bool := true.

Definition user_may_join_room (self : t) (userid room_id : string) (is_invited : bool)
  : bool :=
  if can_only_join_rooms_with_invite self && negb is_invited then false else true.

Definition parse_config (config : Config) : outcome Config :=
  match cfg_default config with
  | Some _ => Returns config
  | None => Raises (ConfigError "No default set for spam_config DomainRuleChecker")
  end.

(** An id with a colon after a local part that has none. *)
Definition mxid (localpart domain : string) : string :=
  (localpart ++ ":" ++ domain)%string.

(** Configs and a checker to instantiate the properties with. *)
Definition example_config : Config :=
  mkConfig (Some (Some {["a.org" := ["a.org"; "b.org"]]})) (Some false) None None None.

Definition example_checker : t :=
  mkChecker {["a.org" := ["a.org"; "b.org"]]} false false false true.

End DomainRuleChecker.

(** The key values select the rows of a user, version, room and session. *)
Definition selects (kv : KeyValues) (user_id : string) (version : Z)
    (room_id session_id : string) : bool :=
  key_matches kv (mkKeyRow user_id version room_id session_id 0 0 false "").

(** The room and the session of an entry of [add_e2e_room_keys]. *)
Definition entry_pair (entry : string * string * RoomKey) : string * string :=
  let '(room_id, session_id, _) := entry in (room_id, session_id).

(** ** Integers and their text *)

Lemma bigint_of_text_str (n : Z) : bigint_of_text (str n) = Some n.
Proof.
  unfold bigint_of_text, str.
  rewrite NilZero.isi.
  - simpl. f_equal. apply DecimalZ.of_to.
  - destruct n; simpl; try discriminate.
    intros [= H]. now apply DecimalPos.Unsigned.to_uint_nonnil in H.
  - destruct n; simpl; try discriminate.
    intros [= H]. now apply DecimalPos.Unsigned.to_uint_nonnil in H.
Qed.

Lemma str_inj (a b : Z) : str a = str b -> a = b.
Proof.
  intros H. pose proof (bigint_of_text_str a) as Ha.
  rewrite H, bigint_of_text_str in Ha. congruence.
Qed.

Lemma store_version_str engine (n : Z) :
  store_version engine (PText (str n)) = Ok n.
Proof. unfold store_version, bind_bigint. now rewrite bigint_of_text_str. Qed.

Lemma bind_version_str engine (n : Z) :
  bind_version engine (PText (str n)) = Ok (Some n).
Proof. unfold bind_version, bind_bigint. now rewrite bigint_of_text_str. Qed.

(** ** The MAX aggregate *)

Lemma sql_max_snoc (vs : list Z) (v : Z) :
  sql_max (vs ++ [v]) = Some (match sql_max vs with
                              | Some m => Z.max m v
                              | None => v
                              end).
Proof. unfold sql_max. now rewrite fold_left_app. Qed.

Lemma sql_max_None (vs : list Z) : sql_max vs = None <-> vs = [].
Proof.
  split.
  - destruct vs as [|v vs] using rev_ind; [reflexivity|].
    rewrite sql_max_snoc. discriminate.
  - intros ->. reflexivity.
Qed.

Lemma sql_max_Some (vs : list Z) (m : Z) :
  sql_max vs = Some m -> In m vs /\ forall v, In v vs -> (v <= m)%Z.
Proof.
  revert m. induction vs as [|v vs IH] using rev_ind; intros m.
  - discriminate.
  - rewrite sql_max_snoc. intros [= <-].
    destruct (sql_max vs) as [m'|] eqn:Hm.
    + destruct (IH m' eq_refl) as [Hin Hle]. split.
      * apply in_or_app. destruct (Z.max_spec m' v) as [[_ ->]|[_ ->]]; [right|left]; simpl; auto.
      * intros x Hx. apply in_app_or in Hx as [Hx|[<-|[]]]; [apply Hle in Hx|]; lia.
    + apply sql_max_None in Hm. subst vs. split; [left; reflexivity|].
      intros x [<-|[]]; lia.
Qed.

Lemma sql_max_greatest (vs : list Z) (m : Z) :
  In m vs -> (forall v, In v vs -> (v <= m)%Z) -> sql_max vs = Some m.
Proof.
  intros Hin Hle. destruct (sql_max vs) as [m'|] eqn:Hm.
  - apply sql_max_Some in Hm as [Hin' Hle'].
    apply Hle in Hin'. apply Hle' in Hin. f_equal. lia.
  - apply sql_max_None in Hm. subst vs. destruct Hin.
Qed.

(** ** What an operation does to the table of versions *)

Lemma update_e2e_room_key_versions engine u v r x k s :
  e2e_room_keys_versions (commit s (update_e2e_room_key engine u v r x k s))
  = e2e_room_keys_versions s.
Proof.
  unfold update_e2e_room_key. unfold_bind.
  destruct (bind_version _ _); [|reflexivity].
  destruct (_simple_update_one_txn _ _ _); reflexivity.
Qed.

Lemma add_e2e_room_keys_versions engine u v ks s :
  e2e_room_keys_versions (commit s (add_e2e_room_keys engine u v ks s))
  = e2e_room_keys_versions s.
Proof.
  unfold add_e2e_room_keys. unfold_bind.
  destruct ks; [reflexivity|].
  destruct (store_version _ _); [|reflexivity].
  destruct (_simple_insert_many _ _ _); reflexivity.
Qed.

Lemma delete_e2e_room_keys_versions u v r x s :
  e2e_room_keys_versions (commit s (delete_e2e_room_keys u v r x s))
  = e2e_room_keys_versions s.
Proof.
  unfold delete_e2e_room_keys. unfold_bind.
  destruct (int_ _); reflexivity.
Qed.

Lemma keeps_key_update keyvalues updatevalues :
  keeps_key updatevalues ->
  keeps_key (fun row => if keyvalues row : bool then updatevalues row else row).
Proof. intros H row. destruct (keyvalues row); [apply H|split; reflexivity]. Qed.

Lemma set_deleted_keeps_key : keeps_key set_deleted.
Proof. intros row. split; reflexivity. Qed.

Lemma updatevalues_keeps_key info :
  keeps_key (fun row => set_hash (vu_hash info) (set_auth_data (vu_auth_data info) row)).
Proof.
  intros row. destruct info as [[a|] [h|]]; split; reflexivity.
Qed.

Lemma versions_of_map user_id g s versions :
  keeps_key g ->
  e2e_room_keys_versions s = List.map g versions ->
  versions_of user_id s = List.map v_version (List.filter (for_user user_id) versions).
Proof.
  intros Hg Heq. unfold versions_of. rewrite Heq. clear Heq.
  induction versions as [|row versions IH]; [reflexivity|].
  cbn [List.map List.filter]. destruct (Hg row) as [Hu Hv].
  assert (Hfor : for_user user_id (g row) = for_user user_id row)
    by (unfold for_user; now rewrite Hu).
  rewrite Hfor. destruct (for_user user_id row); cbn [List.map]; rewrite ?Hv, IH; reflexivity.
Qed.

Lemma max_version_bound user_id s row :
  In row (e2e_room_keys_versions s) -> v_user_id row = user_id ->
  (v_version row <= max_version user_id s)%Z.
Proof.
  intros Hin Hu. unfold max_version.
  assert (Hv : In (v_version row)
                 (List.map v_version
                    (List.filter (for_user user_id) (e2e_room_keys_versions s)))).
  { apply in_map, filter_In. split; [assumption|].
    unfold for_user. rewrite Hu. apply String.eqb_refl. }
  destruct (sql_max _) as [m|] eqn:Hm.
  - apply sql_max_Some in Hm as [_ Hle]. now apply Hle.
  - apply sql_max_None in Hm. rewrite Hm in Hv. destruct Hv.
Qed.

(** [create_e2e_room_keys_version] never fails: it returns the text of the
    highest number of the user plus one and appends the row of that number. *)
Lemma create_e2e_room_keys_version_ok engine user_id info s :
  create_e2e_room_keys_version engine user_id info s
  = Ok (str (max_version user_id s + 1),
        with_versions s
          (e2e_room_keys_versions s
           ++ [mkVersionRow user_id (max_version user_id s + 1) (nv_algorithm info)
                 (json_dumps (nv_auth_data info)) None false])).
Proof.
  unfold create_e2e_room_keys_version, select_max_version, fetchone. cbn [head].
  assert (Hn : int_ match sql_max (List.map v_version
                                     (List.filter (for_user user_id)
                                        (e2e_room_keys_versions s))) with
                    | Some z => PyInt z
                    | None => PyStr "0"
                    end = Ok (max_version user_id s)).
  { unfold max_version. destruct (sql_max _); reflexivity. }
  rewrite Hn. unfold_bind. rewrite store_version_str.
  unfold _simple_insert_txn.
  destruct (existsb _ _) eqn:Hex; [|reflexivity].
  apply existsb_exists in Hex as (row & Hin & Hkey).
  unfold same_version_key in Hkey. simpl in Hkey.
  apply andb_prop in Hkey as [Hu Hv].
  apply String.eqb_eq in Hu. apply Z.eqb_eq in Hv.
  pose proof (max_version_bound user_id s row Hin (eq_sym Hu)). lia.
Qed.

(** Every operation but a creation updates the rows in place, keeping the
    user and the number of each. *)
Lemma step_keeps_versions engine s o :
  (forall u info, o <> CreateVersion u info) ->
  exists g, keeps_key g
            /\ e2e_room_keys_versions (step engine s o)
               = List.map g (e2e_room_keys_versions s).
Proof.
  intros Ho.
  assert (Hid : forall s', e2e_room_keys_versions s' = e2e_room_keys_versions s ->
                           exists g, keeps_key g
                                     /\ e2e_room_keys_versions s'
                                        = List.map g (e2e_room_keys_versions s)).
  { intros s' ->. exists (fun row => row). split; [split; reflexivity|].
    now rewrite map_id. }
  destruct o; simpl.
  - apply Hid, update_e2e_room_key_versions.
  - apply Hid, add_e2e_room_keys_versions.
  - now apply Hid.
  - now apply Hid.
  - now apply Hid.
  - apply Hid, delete_e2e_room_keys_versions.
  - now apply Hid.
  - now destruct (Ho user_id info).
  - unfold update_e2e_room_keys_version. unfold_bind.
    destruct (bind_version _ _) as [v|]; [|now apply Hid].
    unfold _simple_update, _simple_update_txn.
    destruct (_ =? 0)%nat; [now apply Hid|]. simpl.
    eexists. split; [|reflexivity].
    apply keeps_key_update, updatevalues_keeps_key.
  - unfold delete_e2e_room_keys_version. unfold_bind.
    destruct (match version with Some _ => _ | None => _ end) as [p|]; [|now apply Hid].
    destruct (bind_version _ _) as [v|]; [|now apply Hid].
    unfold _simple_update_one_txn, _simple_update_txn.
    destruct (_ =? 0)%nat; [now apply Hid|].
    destruct (_ <? _)%nat; [now apply Hid|]. simpl.
    eexists. split; [|reflexivity].
    apply keeps_key_update, set_deleted_keeps_key.
Qed.

Lemma step_create_versions engine s user_id info :
  e2e_room_keys_versions (step engine s (CreateVersion user_id info))
  = e2e_room_keys_versions s
    ++ [mkVersionRow user_id (max_version user_id s + 1) (nv_algorithm info)
          (json_dumps (nv_auth_data info)) None false].
Proof. simpl. now rewrite create_e2e_room_keys_version_ok. Qed.

(** The numbers of a user after one operation. *)
Lemma step_versions_of engine user_id s o :
  versions_of user_id (step engine s o)
  = versions_of user_id s
    ++ match o with
       | CreateVersion u _ =>
           if String.eqb u user_id then [(max_version user_id s + 1)%Z] else []
       | _ => []
       end.
Proof.
  assert (Hkeep : (forall u info, o <> CreateVersion u info) ->
                  versions_of user_id (step engine s o) = versions_of user_id s).
  { intros Ho. destruct (step_keeps_versions engine s o Ho) as (g & Hg & Heq).
    apply (versions_of_map user_id g _ _ Hg Heq). }
  destruct o; try (rewrite Hkeep by discriminate; now rewrite app_nil_r).
  unfold versions_of. rewrite step_create_versions.
  rewrite List.filter_app, List.map_app. f_equal. simpl. unfold for_user at 1. simpl.
  rewrite String.eqb_sym.
  destruct (String.eqb_spec user_id0 user_id) as [->|]; reflexivity.
Qed.

Lemma step_max_version engine user_id s o :
  max_version user_id (step engine s o)
  = (max_version user_id s
     + match o with
       | CreateVersion u _ => if String.eqb u user_id then 1 else 0
       | _ => 0
       end)%Z.
Proof.
  unfold max_version. fold (versions_of user_id (step engine s o)).
  fold (versions_of user_id s).
  rewrite step_versions_of. fold (max_version user_id s).
  assert (Hnil : forall l, sql_max (l ++ []) = sql_max l) by (intros; now rewrite app_nil_r).
  destruct o; rewrite ?Hnil, ?Z.add_0_r; try reflexivity.
  destruct (String.eqb user_id0 user_id); rewrite ?Hnil, ?Z.add_0_r; try reflexivity.
  rewrite sql_max_snoc. unfold max_version. fold (versions_of user_id s).
  destruct (sql_max (versions_of user_id s)); lia.
Qed.

(** ** Version numbers along a run *)

Lemma created_versions_from engine user_id ops : forall s,
  created_versions engine user_id s ops
  = List.map (fun i => str (max_version user_id s + Z.of_nat i))
             (seq 1 (creations_for user_id ops)).
Proof.
  induction ops as [|o ops IH]; intros s; [reflexivity|].
  cbn [created_versions]. rewrite IH, step_max_version.
  unfold creations_for. cbn [List.filter].
  destruct o; try (rewrite Z.add_0_r; reflexivity).
  destruct (String.eqb_spec user_id0 user_id) as [->|Hne].
  - rewrite create_e2e_room_keys_version_ok. cbn [length seq List.map app].
    f_equal. rewrite <- (seq_shift _ 1), List.map_map.
    apply List.map_ext. intros i. f_equal. lia.
  - rewrite Z.add_0_r. reflexivity.
Qed.

(** C1: [create_e2e_room_keys_version] returns, as text, one plus the
    highest number any row of the user has, deleted or not, and 1 when the
    user has no row; no other operation changes that highest number, so the
    creations for one user along any run from the empty store, whatever else
    the run holds, return "1", "2", "3", ... in order and never the same
    version twice. *)
Theorem create_version_sequence (engine : DatabaseEngine) (user_id : string) :
  (forall s info, exists s',
      create_e2e_room_keys_version engine user_id info s
      = Ok (str (max_version user_id s + 1), s')
      /\ max_version user_id s' = (max_version user_id s + 1)%Z)
  /\ (forall s, (forall row, In row (e2e_room_keys_versions s) -> v_user_id row <> user_id) ->
                max_version user_id s = 0%Z)
  /\ (forall s u version,
         max_version user_id (step engine s (DeleteVersion u version))
         = max_version user_id s)
  /\ (forall ops,
         created_versions engine user_id empty_store ops
         = List.map (fun i => str (Z.of_nat i)) (seq 1 (creations_for user_id ops)))
  /\ (forall ops, List.NoDup (created_versions engine user_id empty_store ops)).
Proof.
  repeat split.
  - intros s info. eexists. split; [apply create_e2e_room_keys_version_ok|].
    pose proof (step_max_version engine user_id s (CreateVersion user_id info)) as H.
    cbn [step] in H. rewrite create_e2e_room_keys_version_ok in H.
    rewrite String.eqb_refl in H. exact H.
  - intros s Hs. unfold max_version.
    replace (List.filter (for_user user_id) (e2e_room_keys_versions s)) with (@nil VersionRow);
      [reflexivity|].
    symmetry. induction (e2e_room_keys_versions s) as [|row l IH]; [reflexivity|].
    cbn [List.filter]. unfold for_user at 1.
    destruct (String.eqb_spec user_id (v_user_id row)) as [Heq|_].
    + exfalso. apply (Hs row); [now left|now symmetry].
    + apply IH. intros row' Hin. apply Hs. now right.
  - intros s u version. rewrite step_max_version. lia.
  - intros ops. rewrite created_versions_from. reflexivity.
  - intros ops. rewrite created_versions_from.
    apply Finite.Injective_map_NoDup; [|apply List.seq_NoDup].
    intros i j Hij. apply str_inj in Hij.
    change (max_version user_id empty_store) with 0%Z in Hij. lia.
Qed.

(** ** The invariant of the table of versions *)

Lemma run_snoc engine s ops o :
  run engine s (ops ++ [o]) = step engine (run engine s ops) o.
Proof. unfold run. now rewrite fold_left_app. Qed.

Lemma reachable_ind' engine (P : Store -> Prop) :
  P empty_store ->
  (forall s o, reachable engine s -> P s -> P (step engine s o)) ->
  forall s, reachable engine s -> P s.
Proof.
  intros H0 Hstep s [ops ->].
  induction ops as [|o ops IH] using rev_ind; [exact H0|].
  rewrite run_snoc. apply Hstep; [now exists ops|exact IH].
Qed.

Lemma reachable_step engine s o :
  reachable engine s -> reachable engine (step engine s o).
Proof. intros [ops ->]. exists (ops ++ [o]). now rewrite run_snoc. Qed.

Lemma step_version_keys engine s o :
  List.map version_key (e2e_room_keys_versions (step engine s o))
  = List.map version_key (e2e_room_keys_versions s)
    ++ match o with
       | CreateVersion u _ => [(u, (max_version u s + 1)%Z)]
       | _ => []
       end.
Proof.
  assert (Hkeep : (forall u info, o <> CreateVersion u info) ->
                  List.map version_key (e2e_room_keys_versions (step engine s o))
                  = List.map version_key (e2e_room_keys_versions s)).
  { intros Ho. destruct (step_keeps_versions engine s o Ho) as (g & Hg & ->).
    rewrite List.map_map. apply List.map_ext. intros row.
    unfold version_key. now destruct (Hg row) as [-> ->]. }
  destruct o; try (rewrite Hkeep by discriminate; now rewrite app_nil_r).
  rewrite step_create_versions, List.map_app. reflexivity.
Qed.

(** No two rows of a reachable store have the same user and number. *)
Lemma reachable_version_keys engine s :
  reachable engine s -> List.NoDup (List.map version_key (e2e_room_keys_versions s)).
Proof.
  revert s. apply reachable_ind'; [constructor|].
  intros s o _ IH. rewrite step_version_keys.
  destruct o; rewrite ?app_nil_r; try exact IH.
  apply NoDup_ListNoDup, NoDup_app. repeat split.
  - now apply NoDup_ListNoDup.
  - intros key Hin Hnew. apply list_elem_of_In in Hin.
    apply list_elem_of_In in Hnew. destruct Hnew as [<-|[]].
    apply in_map_iff in Hin as (row & Hkey & Hin).
    injection Hkey as Hu Hv.
    pose proof (max_version_bound user_id s row Hin Hu). lia.
  - apply NoDup_ListNoDup. repeat constructor. intros [].
Qed.

Lemma filter_nil {A} (P : A -> bool) (l : list A) :
  (forall a, In a l -> P a = false) -> List.filter P l = [].
Proof.
  induction l as [|a l IH]; intros H; [reflexivity|]. cbn [List.filter].
  rewrite (H a) by now left. apply IH. intros b Hb. apply H. now right.
Qed.

(** A condition that only rows with the key of [row] satisfy selects
    [row] alone. *)
Lemma filter_unique_key (P : VersionRow -> bool) (l : list VersionRow) row :
  List.NoDup (List.map version_key l) -> In row l -> P row = true ->
  (forall r, In r l -> P r = true -> version_key r = version_key row) ->
  List.filter P l = [row].
Proof.
  induction l as [|a l IH]; intros Hnd Hin HP Hkey; [destruct Hin|].
  cbn [List.map] in Hnd. apply List.NoDup_cons_iff in Hnd as [Hna Hnd].
  cbn [List.filter]. destruct Hin as [->|Hin].
  - rewrite HP. f_equal. apply filter_nil. intros b Hb.
    destruct (P b) eqn:HPb; [|reflexivity].
    exfalso. apply Hna. rewrite <- (Hkey b (or_intror Hb) HPb). now apply in_map.
  - destruct (P a) eqn:HPa.
    + exfalso. apply Hna. rewrite (Hkey a (or_introl eq_refl) HPa). now apply in_map.
    + apply IH; auto. intros r Hr. apply Hkey. now right.
Qed.

(** ** The current version *)

Lemma for_user_true user_id row : for_user user_id row = true <-> v_user_id row = user_id.
Proof. unfold for_user. rewrite String.eqb_eq. split; congruence. Qed.

Lemma not_deleted_true row : not_deleted row = true <-> v_deleted row = false.
Proof. unfold not_deleted. now destruct (v_deleted row). Qed.

Lemma _get_current_version_eq user_id s :
  _get_current_version user_id s
  = Ok (sql_max (List.map v_version
                   (List.filter (fun row => for_user user_id row && not_deleted row)
                      (e2e_room_keys_versions s)))).
Proof. reflexivity. Qed.

Lemma current_version_max s user_id row :
  is_current_version s user_id row ->
  _get_current_version user_id s = Ok (Some (v_version row)).
Proof.
  intros (Hin & Hu & Hd & Hmax). rewrite _get_current_version_eq. f_equal.
  apply sql_max_greatest.
  - apply in_map, filter_In. split; [exact Hin|].
    apply andb_true_intro. split; [now apply for_user_true|now apply not_deleted_true].
  - intros v Hv. apply in_map_iff in Hv as (row' & <- & Hrow').
    apply filter_In in Hrow' as [Hin' Hc]. apply andb_prop in Hc as [Hu' Hd'].
    apply Hmax; [exact Hin'|now apply for_user_true|now apply not_deleted_true].
Qed.

Lemma no_current_version_max s user_id :
  no_current_version s user_id -> _get_current_version user_id s = Ok None.
Proof.
  intros Hno. rewrite _get_current_version_eq. rewrite filter_nil; [reflexivity|].
  intros row Hin. destruct (for_user user_id row) eqn:Hu; [|reflexivity].
  apply for_user_true in Hu. unfold not_deleted. now rewrite (Hno row Hin Hu).
Qed.

(** Selecting a row by user and number in a store without duplicate keys. *)
Lemma select_version_row (P : VersionRow -> bool) s row :
  List.NoDup (List.map version_key (e2e_room_keys_versions s)) ->
  In row (e2e_room_keys_versions s) ->
  P row = true ->
  (forall r, P r = true -> v_user_id r = v_user_id row /\ v_version r = v_version row) ->
  List.filter P (e2e_room_keys_versions s) = [row].
Proof.
  intros Hnd Hin HP Hkey. apply filter_unique_key; auto.
  intros r _ Hr. unfold version_key. now destruct (Hkey r Hr) as [-> ->].
Qed.

Lemma get_version_info_current engine s user_id row :
  reachable engine s -> is_current_version s user_id row ->
  get_e2e_room_keys_version_info user_id None s = Ok (version_info_of_row row).
Proof.
  intros Hs Hcur. unfold get_e2e_room_keys_version_info.
  rewrite (current_version_max s user_id row Hcur). unfold_bind.
  destruct Hcur as (Hin & Hu & Hd & _).
  unfold _simple_select_one_txn. rewrite (select_version_row _ s row); auto.
  - now apply reachable_version_keys in Hs.
  - rewrite (proj2 (for_user_true _ _) Hu), (proj2 (not_deleted_true _) Hd).
    cbn [version_is]. now rewrite Z.eqb_refl.
  - intros r Hr. apply andb_prop in Hr as [Hr _]. apply andb_prop in Hr as [Hru Hrv].
    apply for_user_true in Hru. cbn [version_is] in Hrv. apply Z.eqb_eq in Hrv.
    split; congruence.
Qed.

Lemma get_version_info_no_current s user_id :
  no_current_version s user_id ->
  get_e2e_room_keys_version_info user_id None s = Err (NotFound "No row found").
Proof.
  intros Hno. unfold get_e2e_room_keys_version_info.
  rewrite (no_current_version_max s user_id Hno). unfold_bind.
  unfold _simple_select_one_txn. rewrite filter_nil; [reflexivity|].
  intros row _. cbn [version_is]. now rewrite andb_false_r.
Qed.

(** Deleting the current version, named or not, flags its row. *)
Lemma delete_current_version engine s user_id row version :
  reachable engine s -> is_current_version s user_id row ->
  version = None \/ version = Some (str (v_version row)) ->
  delete_e2e_room_keys_version engine user_id version s
  = Ok (with_versions s
          (List.map (fun r => if for_user user_id r && (v_version row =? v_version r)%Z
                              then set_deleted r else r)
                    (e2e_room_keys_versions s))).
Proof.
  intros Hs Hcur Hversion. unfold delete_e2e_room_keys_version.
  assert (Hbind : (match version with
                   | Some version => Ok (PText version)
                   | None => current ← _get_current_version user_id s;
                             Ok match current with
                                | Some z => PInt z
                                | None => PNull
                                end
                   end ≫= bind_version engine) = Ok (Some (v_version row))).
  { destruct Hversion as [->| ->].
    - now rewrite (current_version_max s user_id row Hcur).
    - unfold_bind. apply bind_version_str. }
  unfold_bind.
  destruct (match version with Some _ => _ | None => _ end) as [p|e]; [|discriminate].
  rewrite Hbind. unfold _simple_update_one_txn, _simple_update_txn.
  destruct Hcur as (Hin & Hu & Hd & _).
  rewrite (select_version_row _ s row); auto.
  - now apply reachable_version_keys in Hs.
  - rewrite (proj2 (for_user_true _ _) Hu). cbn [version_is]. now rewrite Z.eqb_refl.
  - intros r Hr. apply andb_prop in Hr as [Hru Hrv].
    apply for_user_true in Hru. cbn [version_is] in Hrv. apply Z.eqb_eq in Hrv.
    split; congruence.
Qed.

Lemma in_flagged_rows user_id (V : Z) (versions : list VersionRow) row' :
  In row' (List.map (fun r => if for_user user_id r && (V =? v_version r)%Z
                              then set_deleted r else r) versions) ->
  v_deleted row' = false ->
  In row' versions /\ ~ (v_user_id row' = user_id /\ v_version row' = V).
Proof.
  intros Hin Hd. apply in_map_iff in Hin as (r & Hr & Hin).
  destruct (for_user user_id r && (V =? v_version r)%Z) eqn:Hm.
  - subst row'. discriminate.
  - subst row'. split; [exact Hin|]. intros [Hu Hv].
    apply for_user_true in Hu. rewrite Hu in Hm. subst V.
    now rewrite Z.eqb_refl in Hm.
Qed.

Lemma next_highest_current s user_id row next :
  is_current_version s user_id row -> is_next_highest s user_id row next ->
  is_current_version
    (with_versions s
       (List.map (fun r => if for_user user_id r && (v_version row =? v_version r)%Z
                           then set_deleted r else r)
                 (e2e_room_keys_versions s)))
    user_id next.
Proof.
  intros (_ & _ & _ & Hmax) (Hin & Hu & Hd & Hlt & Hnext).
  unfold is_current_version. cbn [with_versions e2e_room_keys_versions].
  repeat split; auto.
  - apply in_map_iff. exists next. split; [|exact Hin].
    replace (v_version row =? v_version next)%Z with false; [now rewrite andb_false_r|].
    symmetry. apply Z.eqb_neq. lia.
  - intros row' Hin' Hu' Hd'.
    apply in_flagged_rows in Hin' as [Hin' Hne]; [|exact Hd'].
    apply Hnext; auto. pose proof (Hmax row' Hin' Hu' Hd').
    assert (v_version row' <> v_version row) by (intros Hv; apply Hne; now split). lia.
Qed.

Lemma last_version_deleted s user_id row :
  (forall r, In r (e2e_room_keys_versions s) ->
             v_user_id r = user_id -> v_deleted r = false -> r = row) ->
  no_current_version
    (with_versions s
       (List.map (fun r => if for_user user_id r && (v_version row =? v_version r)%Z
                           then set_deleted r else r)
                 (e2e_room_keys_versions s)))
    user_id.
Proof.
  intros Honly row' Hin' Hu'. cbn [with_versions e2e_room_keys_versions] in Hin'.
  destruct (v_deleted row') eqn:Hd'; [reflexivity|]. exfalso.
  apply in_flagged_rows in Hin' as [Hin' Hne]; [|exact Hd'].
  apply Hne. split; [exact Hu'|]. now rewrite (Honly row' Hin' Hu' Hd').
Qed.

(** C2: with the version omitted, [get_e2e_room_keys_version_info] returns
    the row of the highest number among the rows of the user that are not
    deleted, and fails with the 404 [StoreError] when the user has no such
    row; after the current version is deleted, named or not, the same call
    returns the highest of the remaining rows that are not deleted, or fails
    with 404 when the deleted one was the only one. *)
Theorem current_version_resolution (engine : DatabaseEngine) (s : Store)
    (user_id : string) :
  reachable engine s ->
  (forall row, is_current_version s user_id row ->
     get_e2e_room_keys_version_info user_id None s = Ok (version_info_of_row row))
  /\ (no_current_version s user_id ->
      is_not_found (get_e2e_room_keys_version_info user_id None s))
  /\ (forall row version,
        is_current_version s user_id row ->
        version = None \/ version = Some (str (v_version row)) ->
        exists s',
          delete_e2e_room_keys_version engine user_id version s = Ok s'
          /\ (forall next, is_next_highest s user_id row next ->
                get_e2e_room_keys_version_info user_id None s'
                = Ok (version_info_of_row next))
          /\ ((forall r, In r (e2e_room_keys_versions s) ->
                         v_user_id r = user_id -> v_deleted r = false -> r = row) ->
              is_not_found (get_e2e_room_keys_version_info user_id None s'))).
Proof.
  intros Hs. split; [|split].
  - intros row. now apply (get_version_info_current engine).
  - intros Hno. eexists. now apply get_version_info_no_current.
  - intros row version Hcur Hversion.
    pose proof (delete_current_version engine s user_id row version Hs Hcur Hversion) as Hdel.
    eexists. split; [exact Hdel|]. split.
    + intros next Hnext. apply (get_version_info_current engine).
      * pose proof (reachable_step engine s (DeleteVersion user_id version) Hs) as Hs'.
        cbn [step] in Hs'. now rewrite Hdel in Hs'.
      * now apply next_highest_current.
    + intros Honly. eexists.
      now apply get_version_info_no_current, last_version_deleted.
Qed.

Lemma current_version_resolution_witness :
  reachable Sqlite3Engine two_versions
  /\ get_e2e_room_keys_version_info "alice" None two_versions
     = Ok (mkVersionInfo "2" "m.megolm_backup.v1" "{}" 0).
Proof.
  assert (Hr : reachable Sqlite3Engine two_versions) by (eexists; reflexivity).
  split; [exact Hr|].
  apply (proj1 (current_version_resolution Sqlite3Engine two_versions "alice" Hr)
           (mkVersionRow "alice" 2 "m.megolm_backup.v1" "{}" None false)).
  repeat split.
  - right. left. reflexivity.
  - intros row' Hin _ _. vm_compute in Hin.
    destruct Hin as [<-|[<-|[]]]; vm_compute; discriminate.
Defined.

(** ** Deleted versions *)

Lemma version_key_unique (l : list VersionRow) a b :
  List.NoDup (List.map version_key l) -> In a l -> In b l ->
  version_key a = version_key b -> a = b.
Proof.
  induction l as [|c l IH]; intros Hnd Ha Hb Hkey; [destruct Ha|].
  cbn [List.map] in Hnd. apply List.NoDup_cons_iff in Hnd as [Hnc Hnd].
  destruct Ha as [->|Ha], Hb as [->|Hb]; auto.
  - exfalso. apply Hnc. rewrite Hkey. now apply in_map.
  - exfalso. apply Hnc. rewrite <- Hkey. now apply in_map.
Qed.

(** C9: when the row of a version exists and is deleted, naming that
    version to [get_e2e_room_keys_version_info] fails with the 404
    [StoreError]: the lookup has [deleted = 0] among its key values. *)
Theorem deleted_version_not_found (engine : DatabaseEngine) (s : Store)
    (user_id version : string) (row : VersionRow) :
  reachable engine s ->
  In row (e2e_room_keys_versions s) ->
  v_user_id row = user_id ->
  v_deleted row = true ->
  int_of_str version = Some (v_version row) ->
  is_not_found (get_e2e_room_keys_version_info user_id (Some version) s).
Proof.
  intros Hs Hin Hu Hd Hint. exists "No row found".
  unfold get_e2e_room_keys_version_info, int_.
  rewrite Hint. unfold_bind. unfold _simple_select_one_txn.
  rewrite filter_nil; [reflexivity|].
  intros r Hr. destruct (for_user user_id r) eqn:Hru; [|reflexivity].
  cbn [version_is]. destruct (Z.eqb_spec (v_version row) (v_version r)) as [Hv|]; [|reflexivity].
  apply for_user_true in Hru.
  assert (r = row) as ->.
  { apply (version_key_unique (e2e_room_keys_versions s)); auto.
    - now apply (reachable_version_keys engine).
    - unfold version_key. congruence. }
  unfold not_deleted. now rewrite Hd.
Qed.

Lemma deleted_version_not_found_witness :
  is_not_found (get_e2e_room_keys_version_info "alice" (Some "1") deleted_version).
Proof.
  apply (deleted_version_not_found Sqlite3Engine deleted_version "alice" "1"
           (mkVersionRow "alice" 1 "m.megolm_backup.v1" "{}" None true)).
  - exists [CreateVersion "alice" example_info; DeleteVersion "alice" None]. reflexivity.
  - left. reflexivity.
  - reflexivity.
  - reflexivity.
  - reflexivity.
Defined.

(** ** The invariant of the versions of a user *)

Lemma step_keeps_rows engine s o row :
  In row (e2e_room_keys_versions s) ->
  exists row', In row' (e2e_room_keys_versions (step engine s o))
               /\ version_key row' = version_key row.
Proof.
  intros Hin. apply (in_map version_key) in Hin.
  assert (Hin' : In (version_key row)
                   (List.map version_key (e2e_room_keys_versions (step engine s o)))).
  { rewrite step_version_keys. apply in_or_app. now left. }
  apply in_map_iff in Hin' as (row' & Hkey & Hin'). now exists row'.
Qed.

(** C3, as the code has it: in a reachable store no two rows of a user have
    the same version number, no operation removes a row or changes its
    number, and a creation takes a number above every number of the user,
    deleted or not, so a number is never used again; and the highest number
    among the rows that are not deleted is the current version, the one the
    store resolves an omitted version to. Several rows of a user can be not
    deleted at once. *)
Theorem versions_never_reused (engine : DatabaseEngine) (s : Store) (user_id : string) :
  reachable engine s ->
  List.NoDup (List.map version_key (e2e_room_keys_versions s))
  /\ (forall o row, In row (e2e_room_keys_versions s) ->
        exists row', In row' (e2e_room_keys_versions (step engine s o))
                     /\ version_key row' = version_key row)
  /\ (forall info, exists s',
        create_e2e_room_keys_version engine user_id info s
        = Ok (str (max_version user_id s + 1), s')
        /\ forall row, In row (e2e_room_keys_versions s) -> v_user_id row = user_id ->
                       (v_version row < max_version user_id s + 1)%Z)
  /\ (forall row, is_current_version s user_id row ->
        _get_current_version user_id s = Ok (Some (v_version row))
        /\ get_e2e_room_keys_version_info user_id None s = Ok (version_info_of_row row)).
Proof.
  intros Hs. repeat split.
  - now apply (reachable_version_keys engine).
  - intros o row. apply step_keeps_rows.
  - intros info. eexists. split; [apply create_e2e_room_keys_version_ok|].
    intros row Hin Hu. pose proof (max_version_bound user_id s row Hin Hu). lia.
  - now apply current_version_max.
  - now apply (get_version_info_current engine).
Qed.

Lemma versions_never_reused_witness :
  List.NoDup (List.map version_key (e2e_room_keys_versions two_versions)).
Proof.
  apply (versions_never_reused Sqlite3Engine two_versions "alice").
  exists [CreateVersion "alice" example_info; CreateVersion "alice" example_info].
  reflexivity.
Defined.

(** C3 as the spec states it does not hold: two creations leave two rows of
    the user that are not deleted. *)
Lemma two_active_versions :
  ~ (forall engine s user_id,
        reachable engine s -> (length (active_versions user_id s) <= 1)%nat).
Proof.
  intros H.
  assert (Hr : reachable Sqlite3Engine two_versions) by (eexists; reflexivity).
  specialize (H Sqlite3Engine two_versions "alice" Hr).
  vm_compute in H. lia.
Qed.

(** ** Updating a version *)

Lemma updatevalues_updated_fields info row :
  set_hash (vu_hash info) (set_auth_data (vu_auth_data info) row)
  = updated_fields info row.
Proof. destruct info as [[a|] [h|]], row; reflexivity. Qed.

Lemma filter_length_0 {A} (P : A -> bool) (l : list A) :
  (length (List.filter P l) =? 0)%nat = negb (existsb P l).
Proof.
  induction l as [|a l IH]; [reflexivity|]. cbn [List.filter existsb].
  destruct (P a); [reflexivity|exact IH].
Qed.

(** C5: [update_e2e_room_keys_version] replaces [auth_data] and [hash] by
    the fields the partial record holds and keeps every other field, of the
    rows of the user and version named, and fails with the 404 [StoreError]
    when there is no such row. *)
Theorem update_version_fields (engine : DatabaseEngine) (s : Store)
    (user_id version : string) (V : Z) (info : VersionUpdate) :
  bigint_of_text version = Some V ->
  ((forall row, In row (e2e_room_keys_versions s) ->
                ~ (v_user_id row = user_id /\ v_version row = V)) ->
   is_not_found (update_e2e_room_keys_version engine user_id version info s))
  /\ (forall row, In row (e2e_room_keys_versions s) ->
                  v_user_id row = user_id -> v_version row = V ->
      update_e2e_room_keys_version engine user_id version info s
      = Ok (mkStore
              (List.map (fun r => if String.eqb user_id (v_user_id r)
                                     && (V =? v_version r)%Z
                                  then updated_fields info r else r)
                        (e2e_room_keys_versions s))
              (e2e_room_keys s))).
Proof.
  intros Hv. unfold update_e2e_room_keys_version, bind_version, bind_bigint.
  rewrite Hv. unfold_bind. unfold _simple_update, _simple_update_txn.
  rewrite filter_length_0. split.
  - intros Hno. exists "No row found".
    replace (existsb _ _) with false; [reflexivity|].
    symmetry. apply not_true_is_false. intros Hex.
    apply existsb_exists in Hex as (row & Hin & Hm).
    apply andb_prop in Hm as [Hu Hn]. apply for_user_true in Hu.
    cbn [version_is] in Hn. apply Z.eqb_eq in Hn. now apply (Hno row Hin).
  - intros row Hin Hu Hn. replace (existsb _ _) with true.
    + cbn [negb]. unfold with_versions. f_equal. f_equal.
      apply List.map_ext. intros r. rewrite updatevalues_updated_fields. reflexivity.
    + symmetry. apply existsb_exists. exists row. split; [exact Hin|].
      rewrite (proj2 (for_user_true _ _) Hu). cbn [version_is]. subst V.
      now rewrite Z.eqb_refl.
Qed.

Lemma update_version_fields_witness :
  is_not_found (update_e2e_room_keys_version Sqlite3Engine "bob" "1"
                  (mkVersionUpdate None (Some 7%Z)) two_versions).
Proof.
  apply (update_version_fields Sqlite3Engine two_versions "bob" "1" 1
           (mkVersionUpdate None (Some 7%Z))).
  - reflexivity.
  - intros row Hin [Hu _]. vm_compute in Hin.
    destruct Hin as [<-|[<-|[]]]; discriminate.
Defined.

(** ** Deleting a version *)

Lemma get_e2e_room_keys_same_keys u v r x s s' :
  e2e_room_keys s' = e2e_room_keys s ->
  get_e2e_room_keys u v r x s' = get_e2e_room_keys u v r x s.
Proof. intros H. unfold get_e2e_room_keys. now rewrite H. Qed.

Lemma delete_e2e_room_keys_version_result engine user_id version s :
  commit s (delete_e2e_room_keys_version engine user_id version s) = s
  \/ exists v,
       commit s (delete_e2e_room_keys_version engine user_id version s)
       = with_versions s
           (List.map (fun r => if for_user user_id r && version_is v (v_version r)
                               then set_deleted r else r)
                     (e2e_room_keys_versions s)).
Proof.
  unfold delete_e2e_room_keys_version. unfold_bind.
  destruct (match version with Some _ => _ | None => _ end) as [p|]; [|now left].
  destruct (bind_version _ _) as [v|]; [|now left].
  unfold _simple_update_one_txn, _simple_update_txn.
  destruct (_ =? 0)%nat; [now left|].
  destruct (_ <? _)%nat; [now left|]. right. now exists v.
Qed.

(** C7: [delete_e2e_room_keys_version] leaves the table of keys as it is,
    so that [get_e2e_room_keys] returns after it what it returned before,
    for every user, version, room and session; in the table of versions a
    row either stays as it is or is a row of the user with its [deleted]
    flag set and nothing else changed. *)
Theorem delete_version_keeps_keys (engine : DatabaseEngine) (s : Store)
    (user_id : string) (version : option string) :
  e2e_room_keys (commit s (delete_e2e_room_keys_version engine user_id version s))
  = e2e_room_keys s
  /\ (forall u v r x,
        get_e2e_room_keys u v r x
          (commit s (delete_e2e_room_keys_version engine user_id version s))
        = get_e2e_room_keys u v r x s)
  /\ Forall2 (fun old new => new = old
                             \/ (v_user_id old = user_id /\ new = set_deleted old))
       (e2e_room_keys_versions s)
       (e2e_room_keys_versions
          (commit s (delete_e2e_room_keys_version engine user_id version s))).
Proof.
  assert (Hsame : forall l : list VersionRow,
                    Forall2 (fun old new => new = old
                                            \/ (v_user_id old = user_id
                                                /\ new = set_deleted old)) l l).
  { induction l; constructor; auto. }
  destruct (delete_e2e_room_keys_version_result engine user_id version s)
    as [->|[v ->]].
  - repeat split; auto.
  - repeat split; auto. cbn [with_versions e2e_room_keys_versions].
    induction (e2e_room_keys_versions s) as [|row l IH]; constructor; [|exact IH].
    destruct (for_user user_id row) eqn:Hu; [|now left].
    destruct (version_is v (v_version row)); [|now left].
    right. split; [now apply for_user_true|reflexivity].
Qed.

(** ** Grouping rows by room and session *)

Lemma filter_filter {A} (f g : A -> bool) (l : list A) :
  List.filter f (List.filter g l) = List.filter (fun a => g a && f a) l.
Proof.
  induction l as [|a l IH]; [reflexivity|]. cbn [List.filter].
  destruct (g a); cbn [List.filter andb]; [destruct (f a)|]; now rewrite IH.
Qed.

Lemma last_filter_cons {A} (P : A -> bool) (a : A) (l : list A) :
  last (List.filter P (a :: l))
  = match last (List.filter P l) with
    | Some b => Some b
    | None => if P a then Some a else None
    end.
Proof.
  cbn [List.filter]. destruct (P a).
  - apply last_cons.
  - now destruct (last (List.filter P l)).
Qed.

Lemma lookup_multi_add ret row room_id session_id :
  lookup_multi (add_multi ret row) room_id session_id
  = if of_room_session room_id session_id row
    then Some (room_key_of_row row)
    else lookup_multi ret room_id session_id.
Proof.
  unfold lookup_multi, add_multi, of_room_session.
  destruct (String.eqb_spec (k_room_id row) room_id) as [<-|Hr]; cbn [andb].
  - rewrite lookup_insert_eq. cbn.
    destruct (String.eqb_spec (k_session_id row) session_id) as [<-|Hx].
    + apply lookup_insert_eq.
    + rewrite lookup_insert_ne by exact Hx.
      destruct (ret !! k_room_id row); [reflexivity|apply lookup_empty].
  - now rewrite lookup_insert_ne.
Qed.

Lemma lookup_multi_fold rows : forall ret room_id session_id,
  lookup_multi (fold_left add_multi rows ret) room_id session_id
  = match last (List.filter (of_room_session room_id session_id) rows) with
    | Some row => Some (room_key_of_row row)
    | None => lookup_multi ret room_id session_id
    end.
Proof.
  induction rows as [|row rows IH]; intros ret room_id session_id; [reflexivity|].
  cbn [fold_left]. rewrite IH, last_filter_cons, lookup_multi_add.
  destruct (last (List.filter _ rows)); [reflexivity|].
  now destruct (of_room_session room_id session_id row).
Qed.

Lemma lookup_key_add acc row room_id session_id :
  lookup_key (Ok (add_session acc row)) room_id session_id
  = if of_room_session room_id session_id row
    then Some (room_key_of_row row)
    else lookup_key (Ok acc) room_id session_id.
Proof.
  unfold lookup_key, add_session, of_room_session. cbn [rooms].
  destruct (String.eqb_spec (k_room_id row) room_id) as [<-|Hr]; cbn [andb].
  - rewrite lookup_insert_eq. cbn.
    destruct (String.eqb_spec (k_session_id row) session_id) as [<-|Hx].
    + apply lookup_insert_eq.
    + rewrite lookup_insert_ne by exact Hx.
      destruct (rooms acc !! k_room_id row); [reflexivity|apply lookup_empty].
  - now rewrite lookup_insert_ne.
Qed.

Lemma lookup_key_fold rows : forall acc room_id session_id,
  lookup_key (Ok (fold_left add_session rows acc)) room_id session_id
  = match last (List.filter (of_room_session room_id session_id) rows) with
    | Some row => Some (room_key_of_row row)
    | None => lookup_key (Ok acc) room_id session_id
    end.
Proof.
  induction rows as [|row rows IH]; intros acc room_id session_id; [reflexivity|].
  cbn [fold_left]. rewrite IH, last_filter_cons, lookup_key_add.
  destruct (last (List.filter _ rows)); [reflexivity|].
  now destruct (of_room_session room_id session_id row).
Qed.

(** The record a selection of rows holds for a room and a session, once
    grouped: that of the last selected row of the room and session. *)
Lemma lookup_key_select (P : KeyRow -> bool) table room_id session_id :
  lookup_key (Ok (fold_left add_session (_simple_select_list P table) (mkRoomKeys ∅)))
             room_id session_id
  = room_key_of_row <$>
      last (List.filter (fun row => P row && of_room_session room_id session_id row) table).
Proof.
  rewrite lookup_key_fold. unfold _simple_select_list. rewrite filter_filter.
  destruct (last _); [reflexivity|]. cbn. now rewrite lookup_empty.
Qed.

(** The scenario of the spec, on both engines: the versions are "1" and
    "2", three keys are counted, and the keys of version "1" are still
    there after the version is deleted and a second one created. *)
Example end_to_end_scenario (engine : DatabaseEngine) :
  created_versions engine "alice" empty_store scenario = ["1"; "2"]
  /\ count_e2e_room_keys engine "alice" "1" (run engine empty_store scenario) = Ok 3%nat
  /\ lookup_key (get_e2e_room_keys "alice" "1" None None (run engine empty_store scenario))
                "!r2" "s3" = Some example_key
  /\ is_not_found
       (get_e2e_room_keys_version_info "alice" (Some "1") (run engine empty_store scenario)).
Proof.
  destruct engine; repeat split; try reflexivity; eexists; reflexivity.
Qed.

(** ** The hierarchical filter of [get_e2e_room_keys] *)

Lemma truthy_Some (x : string) : x <> "" -> truthy (Some x) = true.
Proof. intros H. cbn. now destruct (String.eqb_spec x ""). Qed.

Lemma key_matches_all u v room_id session_id row :
  key_matches (mkKeyValues u v None None) row && of_room_session room_id session_id row
  = key_matches (mkKeyValues u v (Some room_id) (Some session_id)) row.
Proof.
  unfold key_matches, of_room_session, opt_is. cbn.
  destruct (version_is v (k_version row)); case_eqb.
Qed.

Lemma key_matches_room u v R room_id session_id row :
  key_matches (mkKeyValues u v (Some R) None) row && of_room_session room_id session_id row
  = String.eqb room_id R
    && key_matches (mkKeyValues u v (Some room_id) (Some session_id)) row.
Proof.
  unfold key_matches, of_room_session, opt_is. cbn.
  destruct (version_is v (k_version row)); case_eqb.
Qed.

Lemma key_matches_session u v R S room_id session_id row :
  key_matches (mkKeyValues u v (Some R) (Some S)) row
  && of_room_session room_id session_id row
  = (String.eqb room_id R && String.eqb session_id S)
    && key_matches (mkKeyValues u v (Some room_id) (Some session_id)) row.
Proof.
  unfold key_matches, of_room_session, opt_is. cbn.
  destruct (version_is v (k_version row)); case_eqb.
Qed.

Lemma last_filter_guard {A} (b : bool) (P : A -> bool) (l : list A) :
  last (List.filter (fun a => b && P a) l)
  = if b then last (List.filter P l) else None.
Proof.
  destruct b; cbn [andb]; [reflexivity|].
  rewrite filter_nil; [reflexivity|]. reflexivity.
Qed.

Lemma get_e2e_room_keys_lookup (s : Store) (user_id version : string) (n : Z)
    (room_id session_id : option string) (r x : string) :
  int_of_str version = Some n ->
  lookup_key (get_e2e_room_keys user_id version room_id session_id s) r x
  = room_key_of_row <$>
      last (List.filter
              (fun row => key_matches
                            (filter_keyvalues user_id (Some n) room_id session_id) row
                          && of_room_session r x row)
              (e2e_room_keys s)).
Proof.
  intros Hint. unfold get_e2e_room_keys, int_. rewrite Hint.
  apply lookup_key_select.
Qed.

(** C8: the filter of [get_e2e_room_keys] is hierarchical. Without a room
    the result holds every room and session stored under the version; with
    a room and no session it holds the sessions of that room; with both it
    holds that one session or nothing; a session without a room is ignored.
    So what the call for a room returns is part of what the call without
    room returns, and the call for a room and a session returns for that
    session what the call for the room does. *)
Theorem get_e2e_room_keys_hierarchy (s : Store) (user_id version : string) (n : Z)
    (R S : string) :
  int_of_str version = Some n -> R <> "" -> S <> "" ->
  (forall room_id session_id, exists ret,
      get_e2e_room_keys user_id version room_id session_id s = Ok ret)
  /\ (forall r x,
        lookup_key (get_e2e_room_keys user_id version None None s) r x
        = stored_record (e2e_room_keys s) user_id n r x)
  /\ (forall r x,
        lookup_key (get_e2e_room_keys user_id version (Some R) None s) r x
        = if String.eqb r R then stored_record (e2e_room_keys s) user_id n r x else None)
  /\ (forall r x,
        lookup_key (get_e2e_room_keys user_id version (Some R) (Some S) s) r x
        = if String.eqb r R && String.eqb x S
          then stored_record (e2e_room_keys s) user_id n r x else None)
  /\ get_e2e_room_keys user_id version None (Some S) s
     = get_e2e_room_keys user_id version None None s
  /\ (forall room_id r x room_key,
        lookup_key (get_e2e_room_keys user_id version room_id None s) r x = Some room_key ->
        lookup_key (get_e2e_room_keys user_id version None None s) r x = Some room_key)
  /\ lookup_key (get_e2e_room_keys user_id version (Some R) (Some S) s) R S
     = lookup_key (get_e2e_room_keys user_id version (Some R) None s) R S.
Proof.
  intros Hint HR HS.
  assert (Hall : forall r x,
            lookup_key (get_e2e_room_keys user_id version None None s) r x
            = stored_record (e2e_room_keys s) user_id n r x).
  { intros r x. rewrite (get_e2e_room_keys_lookup s user_id version n) by exact Hint.
    unfold stored_record. f_equal. f_equal. apply List.filter_ext. intros row.
    apply key_matches_all. }
  assert (Hroom : forall R', R' <> "" -> forall r x,
            lookup_key (get_e2e_room_keys user_id version (Some R') None s) r x
            = if String.eqb r R'
              then stored_record (e2e_room_keys s) user_id n r x else None).
  { intros R' HR' r x.
    rewrite (get_e2e_room_keys_lookup s user_id version n) by exact Hint.
    unfold filter_keyvalues. rewrite (truthy_Some R' HR'). cbn [truthy].
    rewrite (List.filter_ext _ _ (key_matches_room user_id (Some n) R' r x)).
    rewrite last_filter_guard. now destruct (String.eqb r R'). }
  assert (Hboth : forall r x,
            lookup_key (get_e2e_room_keys user_id version (Some R) (Some S) s) r x
            = if String.eqb r R && String.eqb x S
              then stored_record (e2e_room_keys s) user_id n r x else None).
  { intros r x. rewrite (get_e2e_room_keys_lookup s user_id version n) by exact Hint.
    unfold filter_keyvalues. rewrite (truthy_Some R HR), (truthy_Some S HS).
    rewrite (List.filter_ext _ _ (key_matches_session user_id (Some n) R S r x)).
    rewrite last_filter_guard. now destruct (String.eqb r R && String.eqb x S). }
  split; [|split; [exact Hall|split; [exact (Hroom R HR)|split; [exact Hboth|split; [|split]]]]].
  - intros room_id session_id. unfold get_e2e_room_keys, int_. rewrite Hint. eauto.
  - reflexivity.
  - intros [R'|] r x room_key; [|tauto].
    destruct (String.eqb_spec R' "") as [->|HR']; [tauto|].
    rewrite (Hroom R' HR'), Hall. now destruct (String.eqb r R').
  - rewrite (Hroom R HR), Hboth. now rewrite !String.eqb_refl.
Qed.

Lemma get_e2e_room_keys_hierarchy_witness :
  lookup_key (get_e2e_room_keys "alice" "1" (Some "!r1") None backed_up_keys) "!r1" "s2"
  = Some example_key
  /\ lookup_key (get_e2e_room_keys "alice" "1" (Some "!r1") None backed_up_keys) "!r2" "s3"
     = None.
Proof.
  destruct (get_e2e_room_keys_hierarchy backed_up_keys "alice" "1" 1 "!r1" "s2")
    as (_ & _ & Hroom & _); [reflexivity|discriminate|discriminate|].
  split; rewrite Hroom; reflexivity.
Defined.

(** ** The query of [_get_e2e_room_keys_multi_txn] *)

Lemma multi_clauses_fold room_keys : forall where_clauses params,
  fold_left (fun '(where_clauses, params) '(room_id, room_sessions) =>
               if (length room_sessions =? 0)%nat
               then (where_clauses, params)
               else (where_clauses ++ [RoomSessionsIn (length room_sessions)],
                     params ++ room_id :: room_sessions))
            room_keys (where_clauses, params)
  = (where_clauses ++ selected_clauses room_keys, params ++ selected_params room_keys).
Proof.
  unfold selected_clauses, selected_params.
  induction room_keys as [|[room_id room_sessions] room_keys IH];
    intros where_clauses params.
  - cbn. now rewrite !app_nil_r.
  - cbn [fold_left flat_map].
    destruct (length room_sessions =? 0)%nat; rewrite IH; [reflexivity|].
    now rewrite <- !app_assoc.
Qed.

Lemma multi_clauses_eq user_id version room_keys :
  multi_clauses user_id version room_keys
  = (selected_clauses room_keys, user_id :: version :: selected_params room_keys).
Proof. unfold multi_clauses. now rewrite multi_clauses_fold. Qed.

Lemma selected_params_length room_keys :
  length (selected_params room_keys)
  = list_sum (List.map placeholders_of (selected_clauses room_keys)).
Proof.
  unfold selected_clauses, selected_params.
  induction room_keys as [|[room_id room_sessions] room_keys IH]; [reflexivity|].
  cbn [flat_map].
  destruct (length room_sessions =? 0)%nat; [exact IH|].
  rewrite length_app, List.map_app, list_sum_app, IH. cbn. lia.
Qed.

Lemma selected_clauses_nonempty room_keys :
  existsb (fun c => match c with RoomSessionsIn O => true | _ => false end)
          (selected_clauses room_keys) = false.
Proof.
  unfold selected_clauses.
  induction room_keys as [|[room_id room_sessions] room_keys IH]; [reflexivity|].
  cbn [flat_map]. rewrite existsb_app, IH, orb_false_r.
  destruct room_sessions; reflexivity.
Qed.

(** The OR of the collected clauses holds for the rows a selection requests. *)
Lemma eval_where_selected room_keys row :
  eval_where (selected_clauses room_keys) (selected_params room_keys) row
  = requested room_keys (k_room_id row) (k_session_id row).
Proof.
  unfold selected_clauses, selected_params, requested.
  induction room_keys as [|[room_id room_sessions] room_keys IH]; [reflexivity|].
  cbn [flat_map existsb].
  destruct room_sessions as [|x room_sessions].
  - cbn [length Nat.eqb app existsb]. now rewrite andb_false_r, IH.
  - cbn [length Nat.eqb app eval_where].
    change (x :: room_sessions ++ ?l) with ((x :: room_sessions) ++ l).
    change (S (length room_sessions)) with (length (x :: room_sessions)).
    rewrite take_app_length, drop_app_length, IH. reflexivity.
Qed.

Lemma selected_clauses_nil room_keys :
  selected_clauses room_keys = []
  <-> forall room_id room_sessions, In (room_id, room_sessions) room_keys ->
                                    room_sessions = [].
Proof.
  unfold selected_clauses.
  induction room_keys as [|[room_id room_sessions] room_keys IH].
  - split; [intros _ ? ? []|reflexivity].
  - cbn [flat_map]. split.
    + intros H. apply app_eq_nil in H as [H1 H2].
      intros r ss [[= <- <-]|Hin]; [|now apply (proj1 IH H2 r)].
      now destruct room_sessions.
    + intros H. rewrite (H room_id room_sessions (or_introl eq_refl)).
      apply IH. intros r ss Hin. apply (H r ss). now right.
Qed.

Lemma existsb_false_weaken {A} (f g : A -> bool) (l : list A) :
  existsb f l = false -> (forall a, g a = true -> f a = true) -> existsb g l = false.
Proof.
  intros Hf Hfg. induction l as [|a l IH]; [reflexivity|].
  cbn [existsb] in *. apply orb_false_elim in Hf as [Ha Hl].
  rewrite (IH Hl), orb_false_r.
  destruct (g a) eqn:Hg; [|reflexivity]. now rewrite (Hfg a Hg) in Ha.
Qed.

(** What [_get_e2e_room_keys_multi_txn] does, case by case. *)
Lemma _get_e2e_room_keys_multi_txn_eq engine user_id version room_keys s :
  _get_e2e_room_keys_multi_txn engine user_id version room_keys s
  = if (length room_keys =? 0)%nat then Ok ∅
    else match selected_clauses room_keys with
         | [] => Err (DatabaseError "syntax error at or near )")
         | _ :: _ =>
             v ← bind_version engine (PText version);
             Ok (fold_left add_multi
                   (List.filter (fun row => String.eqb (k_user_id row) user_id
                                            && version_is v (k_version row)
                                            && requested room_keys (k_room_id row)
                                                 (k_session_id row))
                                (e2e_room_keys s)) ∅)
         end.
Proof.
  unfold _get_e2e_room_keys_multi_txn. rewrite multi_clauses_eq.
  destruct (length room_keys =? 0)%nat; [reflexivity|].
  unfold execute_select_multi.
  pose proof (selected_clauses_nonempty room_keys) as Hne.
  pose proof (selected_params_length room_keys) as Hlen.
  destruct (selected_clauses room_keys) as [|c cs] eqn:Hcs; [reflexivity|].
  replace (existsb _ (c :: cs)) with false.
  - rewrite Hlen, Nat.eqb_refl. cbn [negb]. unfold_bind.
    destruct (bind_version engine (PText version)) as [v|]; [|reflexivity].
    f_equal. f_equal. apply List.filter_ext. intros row.
    rewrite <- Hcs, eval_where_selected. reflexivity.
  - symmetry. apply (existsb_false_weaken _ _ _ Hne).
    intros [[|k]]; destruct engine; auto.
Qed.

(** X1: The records [get_e2e_room_keys_multi] returns when some room of the
    selection has sessions: those stored for the requested pairs of room and
    session. *)
Theorem get_e2e_room_keys_multi_requested (engine : DatabaseEngine) (s : Store)
    (user_id version : string) (n : Z) (room_keys : list (string * list string)) :
  bind_version engine (PText version) = Ok (Some n) ->
  selected_clauses room_keys <> [] ->
  exists ret,
    get_e2e_room_keys_multi engine user_id version room_keys s = Ok ret
    /\ forall room_id session_id,
         lookup_multi ret room_id session_id
         = if requested room_keys room_id session_id
           then stored_record (e2e_room_keys s) user_id n room_id session_id
           else None.
Proof.
  intros Hbind Hsel. unfold get_e2e_room_keys_multi.
  rewrite _get_e2e_room_keys_multi_txn_eq, Hbind.
  destruct room_keys as [|room room_keys]; [now destruct Hsel|].
  cbn [length Nat.eqb].
  destruct (selected_clauses (room :: room_keys)); [now destruct Hsel|].
  unfold_bind. eexists. split; [reflexivity|].
  intros room_id session_id. rewrite lookup_multi_fold, filter_filter.
  unfold lookup_multi. rewrite lookup_empty. cbn [mbind option_bind].
  change (match ?o with Some row => Some (room_key_of_row row) | None => None end)
    with (room_key_of_row <$> o).
  unfold stored_record.
  rewrite (List.filter_ext _
             (fun row => requested (room :: room_keys) room_id session_id
                         && key_matches (mkKeyValues user_id (Some n) (Some room_id)
                                           (Some session_id)) row)).
  - rewrite last_filter_guard. now destruct (requested _ _ _).
  - intros row. unfold key_matches, of_room_session, opt_is.
    cbn [kv_user_id kv_version kv_room_id kv_session_id].
    rewrite (String.eqb_sym room_id), (String.eqb_sym session_id),
      (String.eqb_sym user_id).
    destruct (String.eqb_spec (k_room_id row) room_id) as [<-|];
      destruct (String.eqb_spec (k_session_id row) session_id) as [<-|];
      rewrite ?andb_false_r; try reflexivity.
    destruct (requested _ _ _), (k_user_id row =? user_id)%string,
      (version_is (Some n) (k_version row)); reflexivity.
Qed.

(** The selection of the spec: the sessions of the first room are
    requested, the second room has none. *)
Example get_e2e_room_keys_multi_two_rooms :
  exists ret,
    get_e2e_room_keys_multi Sqlite3Engine "alice" "1"
      [("!r1", ["s1"; "s2"]); ("!r2", [])] backed_up_keys = Ok ret
    /\ lookup_multi ret "!r1" "s1" = Some example_key
    /\ lookup_multi ret "!r1" "s2" = Some example_key
    /\ forall session_id, lookup_multi ret "!r2" session_id = None.
Proof.
  destruct (get_e2e_room_keys_multi_requested Sqlite3Engine backed_up_keys "alice" "1" 1
              [("!r1", ["s1"; "s2"]); ("!r2", [])]) as (ret & Hret & Hlookup);
    [reflexivity|discriminate|].
  exists ret. split; [exact Hret|].
  repeat split; try (rewrite Hlookup; reflexivity).
  intros session_id. rewrite Hlookup. reflexivity.
Defined.

(** C4: when the selection has rooms and every room has an empty session
    set, [_get_e2e_room_keys_multi_txn] collects no clause, builds a query
    whose condition ends in an empty parenthesis and executes it: the call
    fails with the error of the engine where the spec has it return an
    empty mapping without a query. *)
Theorem get_e2e_room_keys_multi_empty_sessions (engine : DatabaseEngine) (s : Store)
    (user_id version : string) (room_keys : list (string * list string)) :
  room_keys <> [] ->
  (forall room_id room_sessions,
      In (room_id, room_sessions) room_keys -> room_sessions = []) ->
  select_multi_sql (fst (multi_clauses user_id version room_keys))
  = ("SELECT room_id, session_id, first_message_index, forwarded_count, "
     ++ "is_verified, session_data FROM e2e_room_keys "
     ++ "WHERE user_id = ? AND version = ? AND ()")%string
  /\ get_e2e_room_keys_multi engine user_id version room_keys s
     = Err (DatabaseError "syntax error at or near )").
Proof.
  intros Hne Hempty. apply selected_clauses_nil in Hempty. split.
  - rewrite multi_clauses_eq. cbn [fst]. rewrite Hempty. reflexivity.
  - unfold get_e2e_room_keys_multi. rewrite _get_e2e_room_keys_multi_txn_eq, Hempty.
    destruct room_keys; [now destruct Hne|reflexivity].
Qed.

Lemma get_e2e_room_keys_multi_empty_sessions_witness :
  get_e2e_room_keys_multi Sqlite3Engine "alice" "1" [("!r2", [])] backed_up_keys
  = Err (DatabaseError "syntax error at or near )").
Proof.
  apply (get_e2e_room_keys_multi_empty_sessions Sqlite3Engine backed_up_keys "alice" "1"
           [("!r2", [])]).
  - discriminate.
  - intros room_id room_sessions [[= _ <-]|[]]. reflexivity.
Defined.

(** ** Versions that are not integers *)

(** C6: for a version that [int] does not read, [get_e2e_room_keys] returns
    no room, [get_e2e_room_keys_version_info] fails with the 404
    [StoreError] and [delete_e2e_room_keys] fails with [ValueError].
    [get_e2e_room_keys_multi] does not call [int]: it returns the empty
    mapping for the empty selection and hands the text to the engine
    otherwise, so that, where the engine does not read the text as an
    integer either, PostgreSQL fails the query a room with sessions gives,
    SQLite finds no row, and both fail the query of rooms without sessions. *)
Theorem non_integer_version (version : string) :
  int_of_str version = None ->
  (forall u r x s, get_e2e_room_keys u version r x s = Ok (mkRoomKeys ∅))
  /\ (forall u s, get_e2e_room_keys_version_info u (Some version) s
                  = Err (NotFound "No row found"))
  /\ (forall u r x s, delete_e2e_room_keys u version r x s = Err ValueError)
  /\ (forall engine u s, get_e2e_room_keys_multi engine u version [] s = Ok ∅)
  /\ (forall engine u room_keys s,
        room_keys <> [] -> selected_clauses room_keys = [] ->
        get_e2e_room_keys_multi engine u version room_keys s
        = Err (DatabaseError "syntax error at or near )"))
  /\ (bigint_of_text version = None ->
      forall u room_keys s,
        selected_clauses room_keys <> [] ->
        get_e2e_room_keys_multi PostgresEngine u version room_keys s
        = Err (DatabaseError "invalid input syntax for integer")
        /\ get_e2e_room_keys_multi Sqlite3Engine u version room_keys s = Ok ∅).
Proof.
  intros Hint. split; [|split; [|split; [|split; [|split]]]].
  - intros u r x s. unfold get_e2e_room_keys, int_. now rewrite Hint.
  - intros u s. unfold get_e2e_room_keys_version_info, int_. now rewrite Hint.
  - intros u r x s. unfold delete_e2e_room_keys, int_. now rewrite Hint.
  - reflexivity.
  - intros engine u room_keys s Hne Hsel. unfold get_e2e_room_keys_multi.
    rewrite _get_e2e_room_keys_multi_txn_eq, Hsel.
    destruct room_keys; [now destruct Hne|reflexivity].
  - intros Htext u room_keys s Hsel. unfold get_e2e_room_keys_multi.
    rewrite !_get_e2e_room_keys_multi_txn_eq.
    destruct room_keys; [now destruct Hsel|]. cbn [length Nat.eqb].
    destruct (selected_clauses _); [now destruct Hsel|].
    unfold bind_version, bind_bigint. rewrite Htext. unfold_bind.
    split; [reflexivity|].
    rewrite filter_nil; [reflexivity|].
    intros row _. cbn [version_is]. now rewrite andb_false_r.
Qed.

Lemma non_integer_version_witness :
  int_of_str "abc" = None
  /\ get_e2e_room_keys "alice" "abc" None None backed_up_keys = Ok (mkRoomKeys ∅)
  /\ get_e2e_room_keys_multi PostgresEngine "alice" "abc" [("!r1", ["s1"])] backed_up_keys
     = Err (DatabaseError "invalid input syntax for integer").
Proof.
  destruct (non_integer_version "abc" eq_refl) as (Hget & _ & _ & _ & _ & Hmulti).
  split; [reflexivity|]. split; [apply Hget|].
  apply (Hmulti eq_refl "alice" [("!r1", ["s1"])] backed_up_keys). discriminate.
Defined.

(** ** The domain of a user id *)

Lemma find_from_range s c i :
  (0 <= i)%Z ->
  DomainRuleChecker.find_from s c i = (-1)%Z
  \/ (i <= DomainRuleChecker.find_from s c i)%Z.
Proof.
  revert i. induction s as [|a s IH]; intros i Hi;
    cbn [DomainRuleChecker.find_from]; [now left|].
  destruct (Ascii.eqb a c); [right; lia|].
  destruct (IH (i + 1)%Z) as [H|H]; [lia|now left|right; lia].
Qed.

Lemma find_from_append s c d : forall i,
  (0 <= i)%Z ->
  DomainRuleChecker.find_from s c i = (-1)%Z ->
  DomainRuleChecker.find_from (s ++ String c d) c i = (i + Z.of_nat (String.length s))%Z.
Proof.
  induction s as [|a s IH]; intros i Hi Hno; simpl in *.
  - rewrite Ascii.eqb_refl. lia.
  - destruct (Ascii.eqb a c); [lia|].
    rewrite IH by (assumption || lia). lia.
Qed.

Lemma find_from_split s c : forall i,
  (0 <= i)%Z ->
  DomainRuleChecker.find_from s c i <> (-1)%Z ->
  exists l d, s = (l ++ String c d)%string
              /\ DomainRuleChecker.find_from l c i = (-1)%Z
              /\ DomainRuleChecker.find_from s c i = (i + Z.of_nat (String.length l))%Z.
Proof.
  induction s as [|a s IH]; intros i Hi Hfound; simpl in *; [congruence|].
  destruct (Ascii.eqb_spec a c) as [->|Hne].
  - exists EmptyString, s. simpl. repeat split. lia.
  - destruct (IH (i + 1)%Z) as (l & d & -> & Hl & Hk); [lia|assumption|].
    exists (String a l), d. simpl.
    destruct (Ascii.eqb_spec a c) as [|_]; [contradiction|].
    repeat split; [exact Hl|]. rewrite Hk. lia.
Qed.

Lemma string_append_assoc (a b c : string) :
  ((a ++ b) ++ c)%string = (a ++ b ++ c)%string.
Proof.
  induction a as [|x a IH]; [reflexivity|].
  change (String x ((a ++ b) ++ c) = String x (a ++ b ++ c))%string.
  now rewrite IH.
Qed.

Lemma find_from_none s c : forall i l d,
  DomainRuleChecker.find_from s c i = (-1)%Z -> (0 <= i)%Z ->
  s <> (l ++ String c d)%string.
Proof.
  intros i l d Hno Hi ->.
  destruct (find_from_range l c i Hi) as [Hl|Hl].
  - rewrite (find_from_append l c d i Hi Hl) in Hno. lia.
  - assert (Hfound : DomainRuleChecker.find_from l c i <> (-1)%Z) by lia.
    destruct (find_from_split l c i Hi Hfound) as (l' & d' & -> & Hl' & _).
    rewrite string_append_assoc in Hno.
    change (String c d' ++ String c d)%string with (String c (d' ++ String c d))%string in Hno.
    rewrite (find_from_append l' c _ i Hi Hl') in Hno. lia.
Qed.

Lemma string_drop_colon l c d :
  DomainRuleChecker.string_drop (S (String.length l)) (l ++ String c d) = d.
Proof. induction l as [|a l IH]; [reflexivity|exact IH]. Qed.

Lemma slice_after_colon l d :
  DomainRuleChecker.slice_from (l ++ String ":" d) (Z.of_nat (String.length l) + 1) = d.
Proof.
  unfold DomainRuleChecker.slice_from.
  destruct (Z.ltb_spec (Z.of_nat (String.length l) + 1) 0) as [H|_]; [lia|].
  replace (Z.to_nat (Z.of_nat (String.length l) + 1)) with (S (String.length l)) by lia.
  apply string_drop_colon.
Qed.

Lemma find_first_colon (localpart domain : string) :
  DomainRuleChecker.find localpart ":" = (-1)%Z ->
  DomainRuleChecker.find (DomainRuleChecker.mxid localpart domain) ":"
  = Z.of_nat (String.length localpart).
Proof.
  intros Hno. unfold DomainRuleChecker.mxid, DomainRuleChecker.find in *.
  change (":" ++ domain)%string with (String ":" domain).
  rewrite (find_from_append localpart ":" domain 0) by (lia || assumption). lia.
Qed.

Lemma slice_mxid (localpart domain : string) :
  DomainRuleChecker.slice_from (DomainRuleChecker.mxid localpart domain)
    (Z.of_nat (String.length localpart) + 1) = domain.
Proof. apply slice_after_colon. Qed.

(** X9: The domain of an id: what follows the first colon, whatever colons the
    domain itself holds (a port). *)
Theorem get_domain_from_id_mxid (localpart domain : string) :
  DomainRuleChecker.find localpart ":" = (-1)%Z ->
  DomainRuleChecker._get_domain_from_id (DomainRuleChecker.mxid localpart domain)
  = DomainRuleChecker.Returns domain.
Proof.
  intros Hno. unfold DomainRuleChecker._get_domain_from_id.
  rewrite find_first_colon by exact Hno.
  destruct (Z.eqb_spec (Z.of_nat (String.length localpart)) (-1)) as [H|_]; [lia|].
  now rewrite slice_mxid.
Qed.

Lemma get_domain_from_id_mxid_witness :
  DomainRuleChecker._get_domain_from_id "@alice:example.com:8448"
  = DomainRuleChecker.Returns "example.com:8448".
Proof.
  apply (get_domain_from_id_mxid "@alice" "example.com:8448"). reflexivity.
Defined.

(** X10: [_get_domain_from_id] raises on the ids without a colon and on no
    other; what it returns is preceded in the id by a local part without
    colon and one colon. *)
Theorem get_domain_from_id_invalid (id : string) :
  (DomainRuleChecker._get_domain_from_id id
   = DomainRuleChecker.Raises (DomainRuleChecker.InvalidID id)
   <-> forall localpart domain, id <> DomainRuleChecker.mxid localpart domain)
  /\ (forall e, DomainRuleChecker._get_domain_from_id id = DomainRuleChecker.Raises e ->
                e = DomainRuleChecker.InvalidID id)
  /\ (forall domain,
        DomainRuleChecker._get_domain_from_id id = DomainRuleChecker.Returns domain ->
        exists localpart, id = DomainRuleChecker.mxid localpart domain
                          /\ DomainRuleChecker.find localpart ":" = (-1)%Z).
Proof.
  unfold DomainRuleChecker._get_domain_from_id, DomainRuleChecker.find,
    DomainRuleChecker.mxid.
  destruct (Z.eqb_spec (DomainRuleChecker.find_from id ":" 0) (-1)) as [Hno|Hfound].
  - split; [split|split].
    + intros _ l d. apply (find_from_none id ":" 0 l d Hno). lia.
    + reflexivity.
    + intros e [= <-]. reflexivity.
    + intros domain [=].
  - destruct (find_from_split id ":" 0) as (l & d & -> & Hl & Hk); [lia|exact Hfound|].
    split; [split|split].
    + intros [=].
    + intros H. now destruct (H l d).
    + intros e [=].
    + intros domain [= <-]. exists l. split; [|exact Hl].
      rewrite Hk, Z.add_0_l, slice_after_colon. reflexivity.
Qed.

(** ** Invites, rooms and the config of the checker *)

(** X11: On ids with a domain the decision depends on the two domains alone: an
    invite outside room creation is refused when the checker only lets
    invite during room creation; otherwise the default decides for an
    inviter whose domain has no entry, and the list of the entry for the
    others. *)
Theorem user_may_invite_domains (self : DomainRuleChecker.t)
    (inviter invitee inviter_domain invitee_domain room_id : string) (new_room : bool) :
  DomainRuleChecker.find inviter ":" = (-1)%Z ->
  DomainRuleChecker.find invitee ":" = (-1)%Z ->
  DomainRuleChecker.user_may_invite self
    (DomainRuleChecker.mxid inviter inviter_domain)
    (DomainRuleChecker.mxid invitee invitee_domain) room_id new_room
  = DomainRuleChecker.Returns
      (if DomainRuleChecker.can_only_invite_during_room_creation self && negb new_room
       then false
       else match DomainRuleChecker.domain_mapping self !! inviter_domain with
            | Some permitted => bool_decide (invitee_domain ∈ permitted)
            | None => DomainRuleChecker.default self
            end).
Proof.
  intros Hinviter Hinvitee. unfold DomainRuleChecker.user_may_invite.
  destruct (_ && _); [reflexivity|].
  unfold DomainRuleChecker._get_domain_from_id.
  rewrite (find_first_colon inviter), (find_first_colon invitee) by assumption.
  destruct (Z.eqb_spec (Z.of_nat (String.length inviter)) (-1)) as [H|_]; [lia|].
  destruct (Z.eqb_spec (Z.of_nat (String.length invitee)) (-1)) as [H|_]; [lia|].
  rewrite !slice_mxid. unfold mbind, DomainRuleChecker.outcome_bind.
  destruct (DomainRuleChecker.domain_mapping self !! inviter_domain) as [permitted|];
    [|reflexivity].
  f_equal. induction permitted as [|d permitted IH]; [reflexivity|].
  cbn [existsb]. rewrite IH.
  destruct (String.eqb_spec invitee_domain d) as [->|Hne].
  - symmetry. apply bool_decide_eq_true. left.
  - cbn [orb]. apply bool_decide_ext. rewrite elem_of_cons. tauto.
Qed.

Lemma user_may_invite_domains_witness :
  DomainRuleChecker.user_may_invite DomainRuleChecker.example_checker
    "@alice:a.org" "@bob:b.org" "!room:a.org" true
  = DomainRuleChecker.Returns true.
Proof.
  apply (user_may_invite_domains DomainRuleChecker.example_checker
           "@alice" "@bob" "a.org" "b.org" "!room:a.org" true); reflexivity.
Defined.

(** X12: The ids are read only where the decision needs them: a checker that
    only lets invite during room creation refuses an invite into an
    existing room without reading them, ids without a colon included;
    everywhere else an id without a colon raises, the invitee's also when
    the domain of the inviter has no entry and the default would decide. *)
Theorem user_may_invite_invalid_ids (self : DomainRuleChecker.t)
    (inviter invitee room_id : string) (new_room : bool) :
  (DomainRuleChecker.can_only_invite_during_room_creation self = true ->
   DomainRuleChecker.user_may_invite self inviter invitee room_id false
   = DomainRuleChecker.Returns false)
  /\ (DomainRuleChecker.can_only_invite_during_room_creation self && negb new_room = false ->
      DomainRuleChecker.find inviter ":" = (-1)%Z ->
      DomainRuleChecker.user_may_invite self inviter invitee room_id new_room
      = DomainRuleChecker.Raises (DomainRuleChecker.InvalidID inviter))
  /\ (DomainRuleChecker.can_only_invite_during_room_creation self && negb new_room = false ->
      DomainRuleChecker.find inviter ":" <> (-1)%Z ->
      DomainRuleChecker.find invitee ":" = (-1)%Z ->
      DomainRuleChecker.user_may_invite self inviter invitee room_id new_room
      = DomainRuleChecker.Raises (DomainRuleChecker.InvalidID invitee)).
Proof.
  unfold DomainRuleChecker.user_may_invite, DomainRuleChecker._get_domain_from_id.
  repeat split.
  - intros ->. reflexivity.
  - intros -> ->. reflexivity.
  - intros -> Hinviter ->.
    destruct (Z.eqb_spec (DomainRuleChecker.find inviter ":") (-1)); [contradiction|].
    reflexivity.
Qed.

(** X13: [parse_config] asks for the key "default" only, [__init__] reads
    "domain_mapping" as well: a config with a default and no mapping is
    accepted by the first and raises [KeyError] in the second. With both
    keys the checker is built, the mapping [None] read as the empty one and
    each flag that is absent as false. *)
Theorem parse_config_then_init (config : DomainRuleChecker.Config) :
  (DomainRuleChecker.cfg_default config = None ->
   exists msg, DomainRuleChecker.parse_config config
               = DomainRuleChecker.Raises (DomainRuleChecker.ConfigError msg))
  /\ (DomainRuleChecker.cfg_default config <> None ->
      DomainRuleChecker.parse_config config = DomainRuleChecker.Returns config)
  /\ (DomainRuleChecker.cfg_default config <> None ->
      DomainRuleChecker.cfg_domain_mapping config = None ->
      DomainRuleChecker.parse_config config ≫= DomainRuleChecker.__init__
      = DomainRuleChecker.Raises (DomainRuleChecker.KeyError "domain_mapping"))
  /\ (forall d mapping,
        DomainRuleChecker.cfg_default config = Some d ->
        DomainRuleChecker.cfg_domain_mapping config = Some mapping ->
        DomainRuleChecker.parse_config config ≫= DomainRuleChecker.__init__
        = DomainRuleChecker.Returns
            (DomainRuleChecker.mkChecker
               (match mapping with Some m => m | None => ∅ end) d
               (bool_decide (DomainRuleChecker.cfg_can_only_join_rooms_with_invite config
                             = Some true))
               (bool_decide (DomainRuleChecker.cfg_can_only_create_one_to_one_rooms config
                             = Some true))
               (bool_decide (DomainRuleChecker.cfg_can_only_invite_during_room_creation config
                             = Some true)))).
Proof.
  unfold DomainRuleChecker.parse_config, DomainRuleChecker.__init__.
  destruct config as [mapping d join one_to_one invite]. cbn.
  repeat split.
  - intros ->. eauto.
  - destruct d; [reflexivity|congruence].
  - intros Hd ->. destruct d; [reflexivity|congruence].
  - intros d' mapping' -> ->. cbn.
    destruct join as [[|]|], one_to_one as [[|]|], invite as [[|]|]; reflexivity.
Qed.

(** X14: A checker built from a config that sets none of the three flags lets
    every user join and create rooms, and decides an invite the same way
    during and after room creation. *)
Theorem init_without_flags (config : DomainRuleChecker.Config) (self : DomainRuleChecker.t) :
  DomainRuleChecker.__init__ config = DomainRuleChecker.Returns self ->
  DomainRuleChecker.cfg_can_only_join_rooms_with_invite config = None ->
  DomainRuleChecker.cfg_can_only_create_one_to_one_rooms config = None ->
  DomainRuleChecker.cfg_can_only_invite_during_room_creation config = None ->
  (forall userid room_id is_invited,
      DomainRuleChecker.user_may_join_room self userid room_id is_invited = true)
  /\ (forall userid invite_list cloning,
        DomainRuleChecker.user_may_create_room self userid invite_list cloning = true)
  /\ (forall inviter invitee room_id new_room,
        DomainRuleChecker.user_may_invite self inviter invitee room_id new_room
        = DomainRuleChecker.user_may_invite self inviter invitee room_id (negb new_room)).
Proof.
  unfold DomainRuleChecker.__init__. intros Hinit Hjoin Hone Hinvite.
  rewrite Hjoin, Hone, Hinvite in Hinit.
  destruct (DomainRuleChecker.cfg_domain_mapping config); [|discriminate].
  destruct (DomainRuleChecker.cfg_default config); [|discriminate].
  injection Hinit as <-. repeat split.
  - intros userid invite_list cloning. unfold DomainRuleChecker.user_may_create_room.
    cbn. now destruct cloning.
Qed.

Lemma init_without_flags_witness :
  DomainRuleChecker.user_may_create_room
    (DomainRuleChecker.mkChecker {["a.org" := ["a.org"; "b.org"]]} false false false false)
    "@alice:a.org" ["@bob:b.org"; "@carol:a.org"] false = true.
Proof.
  apply (init_without_flags DomainRuleChecker.example_config); reflexivity.
Defined.

(** ** Reading back the text of an integer *)

Lemma lstrip_no_space (l : list ascii) :
  Forall (fun a => is_space a = false) l -> lstrip l = l.
Proof. intros [|a l' Ha _]; [reflexivity|]. cbn [lstrip]. now rewrite Ha. Qed.

Lemma strip_no_space (l : list ascii) :
  Forall (fun a => is_space a = false) l -> strip l = l.
Proof.
  intros Hl. unfold strip. rewrite (lstrip_no_space l Hl).
  rewrite lstrip_no_space; [apply rev_involutive|].
  now apply List.Forall_rev.
Qed.

Lemma uint_chars_no_space (d : Decimal.uint) :
  Forall (fun a => is_space a = false)
         (list_ascii_of_string (NilEmpty.string_of_uint d)).
Proof. induction d; cbn [NilEmpty.string_of_uint list_ascii_of_string]; constructor; auto. Qed.

Lemma int_digits_acc (d : Decimal.uint) : forall p : positive,
  int_digits (list_ascii_of_string (NilEmpty.string_of_uint d)) (Z.pos p) true
  = Some (Z.pos (Pos.of_uint_acc d p)).
Proof.
  induction d; intros p;
    cbn [NilEmpty.string_of_uint list_ascii_of_string int_digits Pos.of_uint_acc];
    [reflexivity|..];
    match goal with
    | |- context [digit_of ?c] =>
        let v := eval vm_compute in (digit_of c) in change (digit_of c) with v
    end;
    cbv iota; rewrite <- IHd; f_equal; lia.
Qed.

Lemma int_digits_uint (d : Decimal.uint) : forall after_digit : bool,
  after_digit = true \/ d <> Decimal.Nil ->
  int_digits (list_ascii_of_string (NilEmpty.string_of_uint d)) 0 after_digit
  = Some (Z.of_N (Pos.of_uint d)).
Proof.
  induction d; intros after_digit Hd;
    cbn [NilEmpty.string_of_uint list_ascii_of_string int_digits Pos.of_uint];
    [destruct Hd as [->|Hd]; [reflexivity|now destruct Hd]|..];
    match goal with
    | |- context [digit_of ?c] =>
        let v := eval vm_compute in (digit_of c) in change (digit_of c) with v
    end;
    cbv iota; try (apply IHd; now left);
    cbn [Z.of_N]; rewrite <- int_digits_acc; reflexivity.
Qed.

Lemma int_of_str_uint (d : Decimal.uint) :
  d <> Decimal.Nil ->
  int_of_str (NilEmpty.string_of_uint d) = Some (Z.of_N (Pos.of_uint d)).
Proof.
  intros Hd. unfold int_of_str.
  rewrite (strip_no_space _ (uint_chars_no_space d)).
  rewrite <- (int_digits_uint d false) by now right.
  destruct d; [now destruct Hd|..]; reflexivity.
Qed.

(** [int(str(n)) == n]. *)
Lemma int_of_str_str (n : Z) : int_of_str (str n) = Some n.
Proof.
  unfold str. destruct n as [|p|p]; [reflexivity|..]; cbn [Z.to_int NilZero.string_of_int].
  - pose proof (DecimalPos.Unsigned.to_uint_nonnil p) as Hp.
    replace (NilZero.string_of_uint (Pos.to_uint p))
      with (NilEmpty.string_of_uint (Pos.to_uint p))
      by (destruct (Pos.to_uint p); [now destruct Hp|..]; reflexivity).
    rewrite int_of_str_uint by exact Hp.
    now rewrite DecimalPos.Unsigned.of_to.
  - pose proof (DecimalPos.Unsigned.to_uint_nonnil p) as Hp.
    replace (NilZero.string_of_uint (Pos.to_uint p))
      with (NilEmpty.string_of_uint (Pos.to_uint p))
      by (destruct (Pos.to_uint p); [now destruct Hp|..]; reflexivity).
    unfold int_of_str. cbn [list_ascii_of_string].
    rewrite strip_no_space
      by (constructor; [reflexivity|apply uint_chars_no_space]).
    change (Ascii.eqb "-" "-") with true. cbv iota.
    rewrite int_digits_uint by now right.
    now rewrite DecimalPos.Unsigned.of_to.
Qed.

(** ** A version that was just created *)

Lemma select_created_row user_id info s :
  _simple_select_one_txn
    (fun row => for_user user_id row
                && version_is (Some (max_version user_id s + 1)%Z) (v_version row)
                && not_deleted row)
    (e2e_room_keys_versions s
     ++ [mkVersionRow user_id (max_version user_id s + 1) (nv_algorithm info)
           (json_dumps (nv_auth_data info)) None false])
  = Ok (mkVersionRow user_id (max_version user_id s + 1) (nv_algorithm info)
          (json_dumps (nv_auth_data info)) None false).
Proof.
  unfold _simple_select_one_txn. rewrite List.filter_app, filter_nil.
  - cbn [List.filter app]. unfold for_user, not_deleted.
    cbn [v_user_id v_version v_deleted version_is negb].
    now rewrite String.eqb_refl, Z.eqb_refl.
  - intros row Hin. destruct (for_user user_id row) eqn:Hu; [|reflexivity].
    apply for_user_true in Hu. pose proof (max_version_bound user_id s row Hin Hu).
    cbn [version_is]. replace (_ =? _)%Z with false; [reflexivity|].
    symmetry. apply Z.eqb_neq. lia.
Qed.

Lemma current_after_create user_id info s :
  _get_current_version user_id
    (with_versions s
       (e2e_room_keys_versions s
        ++ [mkVersionRow user_id (max_version user_id s + 1) (nv_algorithm info)
              (json_dumps (nv_auth_data info)) None false]))
  = Ok (Some (max_version user_id s + 1)%Z).
Proof.
  rewrite _get_current_version_eq. cbn [with_versions e2e_room_keys_versions].
  rewrite List.filter_app, List.map_app. cbn [List.filter].
  unfold for_user at 2, not_deleted at 2. cbn [v_user_id v_deleted negb].
  rewrite String.eqb_refl. cbn [andb List.map v_version].
  rewrite sql_max_snoc. f_equal. f_equal.
  destruct (sql_max _) as [m|] eqn:Hm; [|reflexivity].
  apply sql_max_Some in Hm as [Hin _].
  apply in_map_iff in Hin as (row & <- & Hrow).
  apply filter_In in Hrow as [Hin Hc]. apply andb_prop in Hc as [Hu _].
  apply for_user_true in Hu. pose proof (max_version_bound user_id s row Hin Hu). lia.
Qed.

(** X6: What [create_e2e_room_keys_version] returns can be read back at once,
    in any store: [get_e2e_room_keys_version_info] for the returned
    version gives that version, the algorithm and the [auth_data] of the
    creation and the hash 0, and the new version is the current one. *)
Theorem create_then_get_version_info (engine : DatabaseEngine) (user_id : string)
    (info : NewVersionInfo) (s : Store) :
  exists version s',
    create_e2e_room_keys_version engine user_id info s = Ok (version, s')
    /\ get_e2e_room_keys_version_info user_id (Some version) s'
       = Ok (mkVersionInfo version (nv_algorithm info) (nv_auth_data info) 0)
    /\ get_e2e_room_keys_version_info user_id None s'
       = Ok (mkVersionInfo version (nv_algorithm info) (nv_auth_data info) 0).
Proof.
  eexists. eexists. split; [apply create_e2e_room_keys_version_ok|].
  unfold get_e2e_room_keys_version_info, int_. split.
  - rewrite int_of_str_str. unfold_bind. cbn [with_versions e2e_room_keys_versions].
    now rewrite select_created_row.
  - rewrite current_after_create. unfold_bind. cbn [with_versions e2e_room_keys_versions].
    now rewrite select_created_row.
Qed.

(** ** Deletion is final *)

Lemma update_e2e_room_keys_version_result engine user_id version info s :
  commit s (update_e2e_room_keys_version engine user_id version info s) = s
  \/ exists v,
       commit s (update_e2e_room_keys_version engine user_id version info s)
       = with_versions s
           (List.map (fun r => if for_user user_id r && version_is v (v_version r)
                               then set_hash (vu_hash info)
                                      (set_auth_data (vu_auth_data info) r)
                               else r)
                     (e2e_room_keys_versions s)).
Proof.
  unfold update_e2e_room_keys_version. unfold_bind.
  destruct (bind_version _ _) as [v|]; [|now left].
  unfold _simple_update, _simple_update_txn.
  destruct (_ =? 0)%nat; [now left|]. right. now exists v.
Qed.

(** After any operation a row is still there under its user and number,
    with its algorithm, and deleted if it was. *)
Lemma step_keeps_deleted engine s o row :
  In row (e2e_room_keys_versions s) ->
  exists row', In row' (e2e_room_keys_versions (step engine s o))
               /\ version_key row' = version_key row
               /\ v_algorithm row' = v_algorithm row
               /\ (v_deleted row = true -> v_deleted row' = true).
Proof.
  intros Hin.
  assert (Hsame : forall s', e2e_room_keys_versions s' = e2e_room_keys_versions s ->
            exists row', In row' (e2e_room_keys_versions s')
                         /\ version_key row' = version_key row
                         /\ v_algorithm row' = v_algorithm row
                         /\ (v_deleted row = true -> v_deleted row' = true)).
  { intros s' ->. now exists row. }
  assert (Hmap : forall g,
            (forall r, version_key (g r) = version_key r
                       /\ v_algorithm (g r) = v_algorithm r
                       /\ (v_deleted r = true -> v_deleted (g r) = true)) ->
            exists row', In row' (List.map g (e2e_room_keys_versions s))
                         /\ version_key row' = version_key row
                         /\ v_algorithm row' = v_algorithm row
                         /\ (v_deleted row = true -> v_deleted row' = true)).
  { intros g Hg. exists (g row). split; [now apply in_map|apply Hg]. }
  destruct o; cbn [step].
  - apply Hsame, update_e2e_room_key_versions.
  - apply Hsame, add_e2e_room_keys_versions.
  - now apply Hsame.
  - now apply Hsame.
  - now apply Hsame.
  - apply Hsame, delete_e2e_room_keys_versions.
  - now apply Hsame.
  - rewrite create_e2e_room_keys_version_ok. cbn.
    exists row. split; [apply in_or_app; now left|auto].
  - destruct (update_e2e_room_keys_version_result engine user_id version info s)
      as [->|[v ->]]; [now apply Hsame|].
    apply Hmap. intros r. destruct (_ && _); [|auto].
    destruct info as [[a|] [h|]]; cbn; auto.
  - destruct (delete_e2e_room_keys_version_result engine user_id version s)
      as [->|[v ->]]; [now apply Hsame|].
    apply Hmap. intros r. destruct (_ && _); cbn; auto.
Qed.

Lemma run_keeps_deleted engine ops : forall s row,
  In row (e2e_room_keys_versions s) -> v_deleted row = true ->
  exists row', In row' (e2e_room_keys_versions (run engine s ops))
               /\ version_key row' = version_key row
               /\ v_algorithm row' = v_algorithm row
               /\ v_deleted row' = true.
Proof.
  induction ops as [|o ops IH]; intros s row Hin Hd; [now exists row|].
  destruct (step_keeps_deleted engine s o row Hin) as (r1 & Hin1 & Hk1 & Ha1 & Hd1).
  destruct (IH (step engine s o) r1 Hin1 (Hd1 Hd)) as (r2 & Hin2 & Hk2 & Ha2 & Hd2).
  exists r2. repeat split; [exact Hin2|congruence..|exact Hd2].
Qed.

Lemma reachable_run engine s ops :
  reachable engine s -> reachable engine (run engine s ops).
Proof.
  intros [ops0 ->]. exists (ops0 ++ ops). unfold run. now rewrite fold_left_app.
Qed.

Lemma deleted_row_hidden s user_id version row :
  List.NoDup (List.map version_key (e2e_room_keys_versions s)) ->
  In row (e2e_room_keys_versions s) ->
  v_user_id row = user_id -> v_deleted row = true ->
  int_of_str version = Some (v_version row) ->
  get_e2e_room_keys_version_info user_id (Some version) s
  = Err (NotFound "No row found").
Proof.
  intros Hnd Hin Hu Hd Hint. unfold get_e2e_room_keys_version_info, int_.
  rewrite Hint. unfold_bind. unfold _simple_select_one_txn.
  rewrite filter_nil; [reflexivity|].
  intros r Hr. destruct (for_user user_id r) eqn:Hru; [|reflexivity].
  cbn [version_is].
  destruct (Z.eqb_spec (v_version row) (v_version r)) as [Hv|]; [|reflexivity].
  apply for_user_true in Hru.
  assert (r = row) as ->
    by (apply (version_key_unique (e2e_room_keys_versions s)); auto;
        unfold version_key; congruence).
  unfold not_deleted. now rewrite Hd.
Qed.

(** X7: A deleted version stays deleted: whatever operations follow, on any
    users and versions, every row of that user and number is deleted and
    has the algorithm it had, and naming the version to
    [get_e2e_room_keys_version_info] fails with the 404 [StoreError]. No
    operation of the store clears the flag. *)
Theorem deleted_version_stays_deleted (engine : DatabaseEngine) (s : Store)
    (user_id version : string) (row : VersionRow) (ops : list op) :
  reachable engine s ->
  In row (e2e_room_keys_versions s) ->
  v_user_id row = user_id ->
  v_deleted row = true ->
  int_of_str version = Some (v_version row) ->
  (exists row', In row' (e2e_room_keys_versions (run engine s ops))
                /\ version_key row' = version_key row)
  /\ (forall row', In row' (e2e_room_keys_versions (run engine s ops)) ->
                   version_key row' = version_key row ->
                   v_deleted row' = true /\ v_algorithm row' = v_algorithm row)
  /\ is_not_found
       (get_e2e_room_keys_version_info user_id (Some version) (run engine s ops)).
Proof.
  intros Hs Hin Hu Hd Hint.
  destruct (run_keeps_deleted engine ops s row Hin Hd) as (r & Hr & Hk & Ha & Hdr).
  pose proof (reachable_version_keys engine _ (reachable_run engine s ops Hs)) as Hnd.
  split; [now exists r|]. split.
  - intros row' Hin' Hk'.
    assert (row' = r) as ->
      by (apply (version_key_unique _ _ _ Hnd Hin' Hr); congruence).
    now split.
  - exists "No row found". apply (deleted_row_hidden _ _ _ r Hnd Hr).
    + unfold version_key in Hk. congruence.
    + exact Hdr.
    + unfold version_key in Hk. rewrite Hint. f_equal. congruence.
Qed.

Lemma deleted_version_stays_deleted_witness :
  is_not_found
    (get_e2e_room_keys_version_info "alice" (Some "1")
       (run Sqlite3Engine deleted_version
          [CreateVersion "alice" example_info;
           UpdateVersion "alice" "1" (mkVersionUpdate (Some "{}") (Some 3%Z));
           DeleteVersion "alice" (Some "1")])).
Proof.
  apply (deleted_version_stays_deleted Sqlite3Engine deleted_version "alice" "1"
           (mkVersionRow "alice" 1 "m.megolm_backup.v1" "{}" None true)).
  - exists [CreateVersion "alice" example_info; DeleteVersion "alice" None]. reflexivity.
  - left. reflexivity.
  - reflexivity.
  - reflexivity.
  - reflexivity.
Defined.

(** ** Deleting a version by its number *)

Lemma map_unchanged {A} (g : A -> A) (l : list A) :
  (forall a, In a l -> g a = a) -> List.map g l = l.
Proof.
  induction l as [|a l IH]; intros H; [reflexivity|]. cbn [List.map].
  rewrite (H a) by now left. f_equal. apply IH. intros b Hb. apply H. now right.
Qed.

(** X8: [delete_e2e_room_keys_version] with a version named does not look at
    the [deleted] flag: it succeeds on every row of the user that has the
    number, a row that is deleted already included, and then changes
    nothing. It fails with the 404 [StoreError] when the user has no row of
    that number, and, with the version omitted, when the user has no
    version that is not deleted. *)
Theorem delete_named_version (engine : DatabaseEngine) (s : Store)
    (user_id : string) (V : Z) :
  reachable engine s ->
  (forall row, In row (e2e_room_keys_versions s) ->
               v_user_id row = user_id -> v_version row = V ->
     exists s',
       delete_e2e_room_keys_version engine user_id (Some (str V)) s = Ok s'
       /\ e2e_room_keys_versions s'
          = List.map (fun r => if String.eqb user_id (v_user_id r) && (V =? v_version r)%Z
                               then set_deleted r else r)
                     (e2e_room_keys_versions s)
       /\ (v_deleted row = true -> s' = s))
  /\ ((forall row, In row (e2e_room_keys_versions s) ->
                   v_user_id row = user_id -> v_version row <> V) ->
      is_not_found (delete_e2e_room_keys_version engine user_id (Some (str V)) s))
  /\ (no_current_version s user_id ->
      is_not_found (delete_e2e_room_keys_version engine user_id None s)).
Proof.
  intros Hs. pose proof (reachable_version_keys engine s Hs) as Hnd.
  unfold delete_e2e_room_keys_version. split; [|split].
  - intros row Hin Hu Hv. unfold_bind. rewrite bind_version_str.
    unfold _simple_update_one_txn, _simple_update_txn.
    assert (Hrow : List.filter (fun r => for_user user_id r
                                         && version_is (Some V) (v_version r))
                               (e2e_room_keys_versions s) = [row]).
    { apply select_version_row; auto.
      - rewrite (proj2 (for_user_true _ _) Hu). cbn [version_is]. subst V.
        now rewrite Z.eqb_refl.
      - intros r Hr. apply andb_prop in Hr as [Hru Hrv].
        apply for_user_true in Hru. cbn [version_is] in Hrv. apply Z.eqb_eq in Hrv.
        split; congruence. }
    rewrite Hrow. cbn [length Nat.eqb Nat.ltb Nat.leb].
    eexists. split; [reflexivity|]. split; [reflexivity|].
    intros Hd. destruct s as [versions keys]. unfold with_versions.
    cbn [e2e_room_keys_versions e2e_room_keys] in *. f_equal.
    apply map_unchanged. intros r Hr.
    destruct (for_user user_id r && version_is (Some V) (v_version r)) eqn:Hm;
      [|reflexivity].
    assert (In r [row]) as [<-|[]]
      by (rewrite <- Hrow; apply filter_In; now split).
    destruct row. cbn in Hd. subst. reflexivity.
  - intros Hno. exists "No row found". unfold_bind. rewrite bind_version_str.
    unfold _simple_update_one_txn, _simple_update_txn. rewrite filter_nil; [reflexivity|].
    intros row Hin. destruct (for_user user_id row) eqn:Hu; [|reflexivity].
    apply for_user_true in Hu. cbn [version_is andb].
    apply Z.eqb_neq. intros Hv. now apply (Hno row Hin Hu).
  - intros Hno. exists "No row found".
    rewrite (no_current_version_max s user_id Hno). unfold_bind. cbn [bind_version].
    unfold _simple_update_one_txn, _simple_update_txn. rewrite filter_nil; [reflexivity|].
    intros row _. cbn [version_is]. now rewrite andb_false_r.
Qed.

Lemma delete_named_version_witness :
  exists s',
    delete_e2e_room_keys_version Sqlite3Engine "alice" (Some "1") deleted_version = Ok s'
    /\ s' = deleted_version.
Proof.
  assert (Hr : reachable Sqlite3Engine deleted_version)
    by (exists [CreateVersion "alice" example_info; DeleteVersion "alice" None];
        reflexivity).
  destruct (proj1 (delete_named_version Sqlite3Engine deleted_version "alice" 1 Hr)
              (mkVersionRow "alice" 1 "m.megolm_backup.v1" "{}" None true))
    as (s' & Hdel & _ & Hsame); [left; reflexivity|reflexivity|reflexivity|].
  exists s'. split; [exact Hdel|]. now apply Hsame.
Defined.

(** ** Deleting keys *)

Lemma key_matches_selects kv row :
  key_matches kv row
  = selects kv (k_user_id row) (k_version row) (k_room_id row) (k_session_id row).
Proof. reflexivity. Qed.

(** A row with the key of a user, version, room and session. *)
Lemma key_matches_exact u n r x row :
  key_matches (mkKeyValues u (Some n) (Some r) (Some x)) row = true ->
  k_user_id row = u /\ k_version row = n /\ k_room_id row = r /\ k_session_id row = x.
Proof.
  unfold key_matches, opt_is. cbn [kv_user_id kv_version kv_room_id kv_session_id version_is].
  intros H. apply andb_prop in H as [H Hx]. apply andb_prop in H as [H Hr].
  apply andb_prop in H as [Hu Hn].
  apply String.eqb_eq in Hu, Hr, Hx. apply Z.eqb_eq in Hn. auto.
Qed.

Lemma with_keys_with_keys s keys keys' :
  with_keys (with_keys s keys) keys' = with_keys s keys'.
Proof. reflexivity. Qed.

(** X5: [delete_e2e_room_keys] removes the records its filter selects and no
    other, of any user or version, leaves the versions alone, and is
    idempotent; [get_e2e_room_keys] with the same arguments then returns no
    room. *)
Theorem delete_keys_then_get (s : Store) (user_id version : string) (n : Z)
    (room_id session_id : option string) :
  int_of_str version = Some n ->
  exists s',
    delete_e2e_room_keys user_id version room_id session_id s = Ok s'
    /\ e2e_room_keys_versions s' = e2e_room_keys_versions s
    /\ get_e2e_room_keys user_id version room_id session_id s' = Ok (mkRoomKeys ∅)
    /\ (forall u n' r x,
          stored_record (e2e_room_keys s') u n' r x
          = if selects (filter_keyvalues user_id (Some n) room_id session_id) u n' r x
            then None
            else stored_record (e2e_room_keys s) u n' r x)
    /\ delete_e2e_room_keys user_id version room_id session_id s' = Ok s'.
Proof.
  intros Hint. unfold delete_e2e_room_keys, get_e2e_room_keys, int_. rewrite Hint.
  unfold_bind. eexists. split; [reflexivity|].
  cbn [with_keys e2e_room_keys e2e_room_keys_versions].
  unfold _simple_delete, _simple_select_list.
  set (P := key_matches (filter_keyvalues user_id (Some n) room_id session_id)).
  split; [reflexivity|]. split; [|split].
  - rewrite filter_filter, filter_nil; [reflexivity|].
    intros row _. now destruct (P row).
  - intros u n' r x. unfold stored_record. rewrite filter_filter.
    rewrite (List.filter_ext _
               (fun row => negb (selects (filter_keyvalues user_id (Some n) room_id
                                             session_id) u n' r x)
                           && key_matches (mkKeyValues u (Some n') (Some r) (Some x)) row)).
    + rewrite last_filter_guard. now destruct (selects _ _ _ _ _).
    + intros row.
      destruct (key_matches (mkKeyValues u (Some n') (Some r) (Some x)) row) eqn:HK;
        [|now rewrite !andb_false_r].
      apply key_matches_exact in HK as (<- & <- & <- & <-).
      unfold P. now rewrite key_matches_selects.
  - rewrite with_keys_with_keys. f_equal. f_equal. rewrite filter_filter.
    apply List.filter_ext. intros row. now destruct (P row).
Qed.

Lemma delete_keys_then_get_witness :
  exists s',
    delete_e2e_room_keys "alice" "1" (Some "!r1") None backed_up_keys = Ok s'
    /\ stored_record (e2e_room_keys s') "alice" 1 "!r1" "s1" = None
    /\ stored_record (e2e_room_keys s') "alice" 1 "!r2" "s3" = Some example_key.
Proof.
  destruct (delete_keys_then_get backed_up_keys "alice" "1" 1 (Some "!r1") None eq_refl)
    as (s' & Hdel & _ & _ & Hrec & _).
  exists s'. split; [exact Hdel|]. rewrite !Hrec. split; reflexivity.
Defined.

(** ** Replacing a key *)

Lemma key_matches_set_room_key kv room_key row :
  key_matches kv (set_room_key room_key row) = key_matches kv row.
Proof. reflexivity. Qed.

Lemma filter_map_selected {A} (P : A -> bool) (f : A -> A) (l : list A) :
  (forall a, P (f a) = P a) ->
  List.filter P (List.map (fun a => if P a then f a else a) l)
  = List.map f (List.filter P l).
Proof.
  intros Hf. induction l as [|a l IH]; [reflexivity|]. cbn [List.map List.filter].
  destruct (P a) eqn:HP.
  - rewrite Hf, HP. cbn [List.map]. now rewrite IH.
  - now rewrite HP.
Qed.

Lemma filter_map_others {A} (P : A -> bool) (g : A -> A) (l : list A) :
  (forall a, P (g a) = P a) -> (forall a, P a = true -> g a = a) ->
  List.filter P (List.map g l) = List.filter P l.
Proof.
  intros Hg Hid. induction l as [|a l IH]; [reflexivity|]. cbn [List.map List.filter].
  rewrite Hg. destruct (P a) eqn:HP; [|exact IH]. now rewrite (Hid a HP), IH.
Qed.

Lemma room_key_of_set_row room_key row :
  room_key_of_row (set_room_key room_key row) = room_key.
Proof. now destruct room_key. Qed.

(** X4: [update_e2e_room_key] replaces the record of one session and nothing
    else. When exactly one row has the user, version, room and session, it
    succeeds: the session then holds the new record, every other record of
    any user, version, room or session is as before, and no row is added or
    removed. It fails with a [StoreError] when the session has no row in the
    backup, so it never creates one. *)
Theorem update_key_then_get (engine : DatabaseEngine) (s : Store)
    (user_id version room_id session_id : string) (n : Z) (room_key : RoomKey) :
  bind_version engine (PText version) = Ok (Some n) ->
  (forall row,
      List.filter
        (key_matches (mkKeyValues user_id (Some n) (Some room_id) (Some session_id)))
        (e2e_room_keys s) = [row] ->
      exists s',
        update_e2e_room_key engine user_id version room_id session_id room_key s = Ok s'
        /\ stored_record (e2e_room_keys s') user_id n room_id session_id = Some room_key
        /\ (forall u n' r x,
              (u, n', r, x) <> (user_id, n, room_id, session_id) ->
              stored_record (e2e_room_keys s') u n' r x
              = stored_record (e2e_room_keys s) u n' r x)
        /\ length (e2e_room_keys s') = length (e2e_room_keys s)
        /\ e2e_room_keys_versions s' = e2e_room_keys_versions s)
  /\ (stored_record (e2e_room_keys s) user_id n room_id session_id = None ->
      exists code msg,
        update_e2e_room_key engine user_id version room_id session_id room_key s
        = Err (StoreError code msg)).
Proof.
  intros Hbind. unfold update_e2e_room_key. rewrite Hbind. unfold_bind.
  unfold _simple_update_one_txn, _simple_update_txn.
  set (K := key_matches (mkKeyValues user_id (Some n) (Some room_id) (Some session_id))).
  split.
  - intros row HK. rewrite HK. cbn [length Nat.eqb Nat.ltb Nat.leb].
    eexists. split; [reflexivity|].
    cbn [with_keys e2e_room_keys e2e_room_keys_versions].
    split; [|split; [|split; [apply length_map|reflexivity]]].
    + unfold stored_record. fold K.
      rewrite (filter_map_selected K (set_room_key room_key))
        by (intros a; apply key_matches_set_room_key).
      rewrite HK. cbn. now rewrite room_key_of_set_row.
    + intros u n' r x Hne. unfold stored_record. f_equal. f_equal.
      apply filter_map_others.
      * intros a. now destruct (K a).
      * intros a Ha. destruct (K a) eqn:HKa; [|reflexivity].
        apply key_matches_exact in Ha as (<- & <- & <- & <-).
        apply key_matches_exact in HKa as (Hu & Hn & Hr & Hx).
        destruct Hne. congruence.
  - unfold stored_record. fold K. intros Hnone. exists 404%Z, "No row found".
    destruct (List.filter K (e2e_room_keys s)) as [|row rest] eqn:HK; [reflexivity|].
    exfalso. destruct (last (row :: rest)) eqn:Hlast; [discriminate|].
    now apply last_None in Hlast.
Qed.

Lemma update_key_then_get_witness :
  exists s',
    update_e2e_room_key Sqlite3Engine "alice" "1" "!r1" "s1" replacement_key
      backed_up_keys = Ok s'
    /\ stored_record (e2e_room_keys s') "alice" 1 "!r1" "s1" = Some replacement_key
    /\ stored_record (e2e_room_keys s') "alice" 1 "!r1" "s2" = Some example_key.
Proof.
  destruct (proj1 (update_key_then_get Sqlite3Engine backed_up_keys "alice" "1" "!r1" "s1"
                     1 replacement_key eq_refl)
              (mkKeyRow "alice" 1 "!r1" "s1" 1 0 true "{}") eq_refl)
    as (s' & Hupdate & Hnew & Hothers & _).
  exists s'. split; [exact Hupdate|]. split; [exact Hnew|].
  rewrite Hothers by discriminate. reflexivity.
Defined.

(** ** Adding keys *)

Lemma _simple_insert_many_ok {Row} (same_key : Row -> Row -> bool) values :
  forall table table',
    _simple_insert_many same_key table values = Ok table' -> table' = table ++ values.
Proof.
  induction values as [|row values IH]; intros table table' H; cbn in H.
  - injection H as <-. now rewrite app_nil_r.
  - unfold _simple_insert_txn in H. destruct (existsb _ _); [discriminate|].
    cbn in H. apply IH in H. now rewrite <- app_assoc in H.
Qed.

Lemma filter_added_rows (K : KeyRow -> bool) user_id n room_keys :
  (forall entry, In entry room_keys ->
     K (let '(r, x, k) := entry in row_of_room_key user_id n r x k) = false) ->
  List.filter K (List.map (fun '(r, x, k) => row_of_room_key user_id n r x k) room_keys)
  = [].
Proof.
  intros H. apply filter_nil. intros row Hrow.
  apply in_map_iff in Hrow as ([[r x] k] & <- & Hin). apply (H _ Hin).
Qed.

Lemma filter_added_row user_id n room_keys : forall r x k,
  List.NoDup (List.map entry_pair room_keys) ->
  In (r, x, k) room_keys ->
  List.filter (key_matches (mkKeyValues user_id (Some n) (Some r) (Some x)))
              (List.map (fun '(r, x, k) => row_of_room_key user_id n r x k) room_keys)
  = [row_of_room_key user_id n r x k].
Proof.
  induction room_keys as [|[[r0 x0] k0] room_keys IH]; intros r x k Hnd Hin;
    [destruct Hin|].
  cbn [List.map entry_pair] in Hnd. apply List.NoDup_cons_iff in Hnd as [Hfresh Hnd].
  cbn [List.map List.filter]. destruct Hin as [[= -> -> ->]|Hin].
  - replace (key_matches _ (row_of_room_key user_id n r x k)) with true
      by (unfold key_matches, opt_is; cbn; now rewrite !String.eqb_refl, Z.eqb_refl).
    f_equal. apply filter_added_rows. intros [[r' x'] k'] Hin'.
    destruct (key_matches _ _) eqn:HK; [|reflexivity].
    apply key_matches_exact in HK as (_ & _ & Hr & Hx). cbn in Hr, Hx. subst.
    destruct Hfresh. apply (in_map entry_pair) in Hin'. exact Hin'.
  - destruct (key_matches _ (row_of_room_key user_id n r0 x0 k0)) eqn:HK.
    + apply key_matches_exact in HK as (_ & _ & Hr & Hx). cbn in Hr, Hx. subst.
      destruct Hfresh. apply (in_map entry_pair) in Hin. exact Hin.
    + now apply IH.
Qed.

(** X3: What [add_e2e_room_keys] adds is what [get_e2e_room_keys] finds: when
    the insert succeeds, every entry is stored under its room and session
    (entries of distinct rooms and sessions), the records of other users,
    versions, rooms and sessions are as before, [count_e2e_room_keys] of the
    backup grows by the number of entries, and the versions are left alone. *)
Theorem add_keys_then_get (engine : DatabaseEngine) (s s' : Store)
    (user_id version : string) (n : Z)
    (room_keys : list (string * string * RoomKey)) :
  bigint_of_text version = Some n ->
  add_e2e_room_keys engine user_id version room_keys s = Ok s' ->
  List.NoDup (List.map entry_pair room_keys) ->
  (forall r x k, In (r, x, k) room_keys ->
     stored_record (e2e_room_keys s') user_id n r x = Some k)
  /\ (forall u n' r x,
        u <> user_id \/ n' <> n \/ ~ In (r, x) (List.map entry_pair room_keys) ->
        stored_record (e2e_room_keys s') u n' r x
        = stored_record (e2e_room_keys s) u n' r x)
  /\ (forall c, count_e2e_room_keys engine user_id version s = Ok c ->
                count_e2e_room_keys engine user_id version s'
                = Ok (c + length room_keys)%nat)
  /\ e2e_room_keys_versions s' = e2e_room_keys_versions s.
Proof.
  intros Htext Hadd Hnd.
  assert (Hkeys : e2e_room_keys s'
                  = e2e_room_keys s
                    ++ List.map (fun '(r, x, k) => row_of_room_key user_id n r x k)
                         room_keys
                  /\ e2e_room_keys_versions s' = e2e_room_keys_versions s).
  { unfold add_e2e_room_keys, store_version, bind_bigint in Hadd. rewrite Htext in Hadd.
    destruct room_keys as [|entry room_keys];
      [injection Hadd as <-; now rewrite app_nil_r|].
    unfold_bind.
    destruct (_simple_insert_many _ _ _) as [keys|] eqn:Hins; [|discriminate].
    injection Hadd as <-. apply _simple_insert_many_ok in Hins. now subst keys. }
  destruct Hkeys as [Hkeys Hversions]. split; [|split; [|split; [|exact Hversions]]].
  - intros r x k Hin. unfold stored_record.
    rewrite Hkeys, List.filter_app, (filter_added_row user_id n room_keys r x k Hnd Hin).
    rewrite last_snoc. cbn. f_equal. now destruct k.
  - intros u n' r x Hother. unfold stored_record.
    rewrite Hkeys, List.filter_app, filter_added_rows; [now rewrite app_nil_r|].
    intros [[r' x'] k'] Hin.
    destruct (key_matches _ _) eqn:HK; [|reflexivity].
    apply key_matches_exact in HK as (Hu & Hn & Hr & Hx). cbn in Hu, Hn, Hr, Hx. subst.
    destruct Hother as [Hu|[Hn|Hpair]]; [now destruct Hu|now destruct Hn|].
    destruct Hpair. apply (in_map entry_pair) in Hin. exact Hin.
  - intros c. unfold count_e2e_room_keys, bind_version, bind_bigint. rewrite Htext.
    unfold_bind. intros [= <-]. f_equal. unfold _simple_select_list.
    rewrite Hkeys, List.filter_app, length_app. f_equal.
    replace (List.filter _ (List.map _ room_keys))
      with (List.map (fun '(r, x, k) => row_of_room_key user_id n r x k) room_keys);
      [apply length_map|].
    clear. induction room_keys as [|[[r x] k] room_keys IH]; [reflexivity|].
    cbn [List.map List.filter].
    replace (key_matches _ (row_of_room_key user_id n r x k)) with true
      by (unfold key_matches, opt_is; cbn; now rewrite String.eqb_refl, Z.eqb_refl).
    now rewrite <- IH.
Qed.

Lemma add_keys_then_get_witness :
  stored_record (e2e_room_keys backed_up_keys) "alice" 1 "!r1" "s2" = Some example_key.
Proof.
  apply (add_keys_then_get Sqlite3Engine
           (run Sqlite3Engine empty_store [CreateVersion "alice" example_info])
           backed_up_keys "alice" "1" 1
           [("!r1", "s1", example_key); ("!r1", "s2", example_key);
            ("!r2", "s3", example_key)]).
  - reflexivity.
  - reflexivity.
  - repeat constructor; cbn; intuition discriminate.
  - right. left. reflexivity.
Defined.

(** ** Several keys at a time and one key at a time *)

Lemma lookup_multi_selected table user_id n room_keys room_id session_id :
  lookup_multi
    (fold_left add_multi
       (List.filter (fun row => String.eqb (k_user_id row) user_id
                                && version_is (Some n) (k_version row)
                                && requested room_keys (k_room_id row) (k_session_id row))
                    table) ∅)
    room_id session_id
  = if requested room_keys room_id session_id
    then stored_record table user_id n room_id session_id
    else None.
Proof.
  rewrite lookup_multi_fold, filter_filter.
  unfold lookup_multi. rewrite lookup_empty. cbn [mbind option_bind].
  change (match ?o with Some row => Some (room_key_of_row row) | None => None end)
    with (room_key_of_row <$> o).
  unfold stored_record.
  rewrite (List.filter_ext _
             (fun row => requested room_keys room_id session_id
                         && key_matches (mkKeyValues user_id (Some n) (Some room_id)
                                           (Some session_id)) row)).
  - rewrite last_filter_guard. now destruct (requested _ _ _).
  - intros row. unfold key_matches, of_room_session, opt_is.
    cbn [kv_user_id kv_version kv_room_id kv_session_id].
    rewrite (String.eqb_sym room_id), (String.eqb_sym session_id),
      (String.eqb_sym user_id).
    destruct (String.eqb_spec (k_room_id row) room_id) as [<-|];
      destruct (String.eqb_spec (k_session_id row) session_id) as [<-|];
      rewrite ?andb_false_r; try reflexivity.
    destruct (requested _ _ _), (k_user_id row =? user_id)%string,
      (version_is (Some n) (k_version row)); reflexivity.
Qed.

Lemma requested_selected room_keys room_id session_id :
  requested room_keys room_id session_id = true -> selected_clauses room_keys <> [].
Proof.
  intros Hreq Hsel. unfold requested in Hreq.
  apply existsb_exists in Hreq as ([r room_sessions] & Hin & Hm).
  rewrite (proj1 (selected_clauses_nil room_keys) Hsel r room_sessions Hin) in Hm.
  cbn in Hm. now rewrite andb_false_r in Hm.
Qed.

(** X2: [get_e2e_room_keys_multi] and [get_e2e_room_keys] agree: for a version
    both read as the same number, the record the first returns for a
    requested room and session is the one the second returns when asked for
    that room and session alone. *)
Theorem get_multi_agrees_with_get (engine : DatabaseEngine) (s : Store)
    (user_id version : string) (n : Z) (room_keys : list (string * list string))
    (room_id session_id : string) :
  int_of_str version = Some n ->
  bigint_of_text version = Some n ->
  room_id <> "" -> session_id <> "" ->
  requested room_keys room_id session_id = true ->
  exists ret,
    get_e2e_room_keys_multi engine user_id version room_keys s = Ok ret
    /\ lookup_multi ret room_id session_id
       = lookup_key (get_e2e_room_keys user_id version (Some room_id) (Some session_id) s)
                    room_id session_id.
Proof.
  intros Hint Htext Hroom Hsession Hreq.
  pose proof (requested_selected room_keys room_id session_id Hreq) as Hsel.
  unfold get_e2e_room_keys_multi. rewrite _get_e2e_room_keys_multi_txn_eq.
  unfold bind_version, bind_bigint. rewrite Htext.
  destruct room_keys as [|room room_keys]; [discriminate|]. cbn [length Nat.eqb].
  destruct (selected_clauses (room :: room_keys)); [now destruct Hsel|].
  unfold_bind. eexists. split; [reflexivity|].
  rewrite lookup_multi_selected, Hreq.
  rewrite (get_e2e_room_keys_lookup s user_id version n) by exact Hint.
  unfold filter_keyvalues. rewrite (truthy_Some room_id Hroom), (truthy_Some session_id Hsession).
  rewrite (List.filter_ext _ _
             (key_matches_session user_id (Some n) room_id session_id room_id session_id)).
  rewrite last_filter_guard, !String.eqb_refl. reflexivity.
Qed.

Lemma get_multi_agrees_with_get_witness :
  exists ret,
    get_e2e_room_keys_multi PostgresEngine "alice" "1" [("!r1", ["s2"; "s7"])]
      backed_up_keys = Ok ret
    /\ lookup_multi ret "!r1" "s2"
       = lookup_key (get_e2e_room_keys "alice" "1" (Some "!r1") (Some "s2") backed_up_keys)
                    "!r1" "s2".
Proof.
  apply (get_multi_agrees_with_get PostgresEngine backed_up_keys "alice" "1" 1
           [("!r1", ["s2"; "s7"])] "!r1" "s2");
    (reflexivity || discriminate).
Defined.
